(** * ChARGe: the debugging vLLM client and the multi-server example driver

    A shallow embedding of
    - [charge/clients/debug_vllm_client.py]: [DebugVLLMClient.create] and
      [DebugVLLMClient.get_response_summary];
    - [examples/Multi_Server_Experiments/main.py]: the default prompts and
      [ChargeMultiServerTask.__init__].

    Python [str] values are [string]s, one [ascii] per character.  The
    client's attributes [call_count] and [raw_responses] are threaded as an
    explicit state; [logger.info] appends to a list of emitted lines; a Python
    exception is the [Raise] result of a computation. *)

From Stdlib Require Import Ascii ZArith DecimalString.
From stdpp Require Import base list sorting gmap strings.
From Equations Require Import Equations.

Local Open Scope nat_scope.

(** ** Python strings *)

Module Str.

Definition nl : ascii := "010"%char.

(** [len(s)] *)
Definition len (s : string) : nat := String.length s.

(** [s[:n]] *)
Fixpoint take (n : nat) (s : string) : string :=
  match n, s with
  | S n', String c s' => String c (take n' s')
  | _, _ => EmptyString
  end.

(** [s[n:]] *)
Fixpoint drop (n : nat) (s : string) : string :=
  match n, s with
  | S n', String c s' => drop n' s'
  | _, _ => s
  end.

(** [s * n] *)
Fixpoint repeat (s : string) (n : nat) : string :=
  match n with
  | 0 => EmptyString
  | S n' => s +:+ repeat s n'
  end.

(** [format(s, "<Ns")]: left-aligned, filled with spaces up to the width;
    a longer string is kept whole. *)
Definition ljust (width : nat) (s : string) : string :=
  s +:+ repeat " " (width - len s).

(** [format(s, "0Nd")] on the digits of a non-negative integer. *)
Definition zfill (width : nat) (s : string) : string :=
  repeat "0" (width - len s) +:+ s.

(** [s.split("\n")]: one more piece than there are newlines. *)
Fixpoint split_nl (s : string) : list string :=
  match s with
  | EmptyString => [EmptyString]
  | String c s' =>
      if Ascii.eqb c nl then EmptyString :: split_nl s'
      else match split_nl s' with
           | piece :: pieces => String c piece :: pieces
           | [] => [String c EmptyString]
           end
  end.

(** [sep.join(pieces)] with the empty separator *)
Definition concat (pieces : list string) : string :=
  foldr String.append EmptyString pieces.

(** [str(n)] for a non-negative integer *)
Definition of_nat (n : nat) : string :=
  NilZero.string_of_uint (Nat.to_uint n).

(** [str(z)] for an integer *)
Definition of_Z (z : Z) : string :=
  NilZero.string_of_int (Z.to_int z).

End Str.

(** ** Python values and exceptions *)

(** The exceptions this code can meet: the three built-in kinds that
    formatting and attribute access raise, and any other exception of the
    wrapped client, known by its name. *)
Inductive exn :=
| TypeError
| ValueError
| AttributeError
| OtherError (name : string).

Inductive result (A : Type) :=
| Return (a : A)
| Raise (e : exn).
Arguments Return {A} a.
Arguments Raise {A} e.

(** A value without structure of its own: [None], a [bool], an [int], a
    [str], or any other object, of which only [bool(o)] and [str(o)] are
    looked at (the object keeps the [__format__] of [object]). *)
Inductive scalar :=
| VNone
| VBool (b : bool)
| VInt (z : Z)
| VStr (s : string)
| VObj (truth : bool) (text : string).

(** [bool(v)] *)
Definition truthy (v : scalar) : bool :=
  match v with
  | VNone => false
  | VBool b => b
  | VInt z => negb (z =? 0)%Z
  | VStr s => negb (String.eqb s EmptyString)
  | VObj truth _ => truth
  end.

(** [str(v)] *)
Definition py_str (v : scalar) : string :=
  match v with
  | VNone => "None"
  | VBool true => "True"
  | VBool false => "False"
  | VInt z => Str.of_Z z
  | VStr s => s
  | VObj _ text => text
  end.

(** [format(v, "<Ns")]: only a [str] takes the [s] presentation type. *)
Definition format_s (width : nat) (v : scalar) : result string :=
  match v with
  | VStr s => Return (Str.ljust width s)
  | VInt _ | VBool _ => Raise ValueError
  | VNone | VObj _ _ => Raise TypeError
  end.

(** [format(v, "<Nd")]: an [int] (a [bool] is one) takes the [d]
    presentation type. *)
Definition format_d (width : nat) (v : scalar) : result string :=
  match v with
  | VInt z => Return (Str.ljust width (Str.of_Z z))
  | VBool b => Return (Str.ljust width (if b then "1" else "0"))
  | VStr _ => Raise ValueError
  | VNone | VObj _ _ => Raise TypeError
  end.

(** [format(n, "03d")] on a counter. *)
Definition format_03d (n : nat) : string := Str.zfill 3 (Str.of_nat n).

(** A value of the keyword arguments: a scalar or a [dict] with string keys,
    its items in insertion order. *)
Inductive kwval :=
| KScalar (v : scalar)
| KDict (items : list (string * scalar)).

Definition format_s_kw (width : nat) (v : kwval) : result string :=
  match v with
  | KScalar a => format_s width a
  | KDict _ => Raise TypeError
  end.

(** [v.items()] *)
Definition items (v : kwval) : result (list (string * scalar)) :=
  match v with
  | KDict kvs => Return kvs
  | KScalar _ => Raise AttributeError
  end.

(** ** The response of the wrapped client

    A field is [None] when the object does not have the attribute
    ([hasattr] is false).  [obj_id] is the identity of the object
    ([id(response)]): two responses with the same attributes are still two
    objects. *)

Inductive content_value :=
| CScalar (v : scalar)
| CList (elems : list scalar).

Record usage_obj := {
  prompt_tokens : scalar;
  completion_tokens : scalar;
  total_tokens : option scalar
}.

Record Response := {
  obj_id : N;
  content : option content_value;
  thought : option scalar;
  usage : option (option usage_obj);  (* [Some None]: the attribute is [None] *)
  finish_reason : option scalar
}.

(** [bool(response.content)] *)
Definition content_truthy (c : content_value) : bool :=
  match c with
  | CScalar v => truthy v
  | CList [] => false
  | CList (_ :: _) => true
  end.

(** ** Emitted log lines

    One constructor for each [logger.info] statement of the client; a field
    holds the text the statement formats into the line.  [render] gives the
    line as it is written. *)

Inductive line :=
| Top                                       (* "\n" + "╔" + "="*98 + "╗" *)
| Mid                                       (* "╠" + "="*98 + "╣" *)
| Sep                                       (* "╟" + "-"*98 + "╢" *)
| Bottom                                    (* "╚" + "="*98 + "╝\n" *)
| RequestTitle (call_id : nat)
| ModelLine (model : string)
| MessagesLine (count : nat)
| ExtraBodyHeader
| ExtraBodyParam (key value : string)
| ResponseTitle (call_id : nat)
| ContentHeader
| ItemRow (idx : nat) (row : string)
| ItemContinuationRow (row : string)
| ContentRow (row : string)
| ThoughtHeader
| ThoughtRow (row : string)
| UsageHeader
| PromptTokens (count : string)
| CompletionTokens (count : string)
| TotalTokens (count : string)
| FinishReason (reason : string)
| SummaryTitle
| TotalCalls (count : string)
| CallHeader (call_id : nat)
| HasContent (flag : string)
| HasThought (flag : string).

Definition render (l : line) : string :=
  match l with
  | Top => String Str.nl "╔" +:+ Str.repeat "=" 98 +:+ "╗"
  | Mid => "╠" +:+ Str.repeat "=" 98 +:+ "╣"
  | Sep => "╟" +:+ Str.repeat "-" 98 +:+ "╢"
  | Bottom => "╚" +:+ Str.repeat "=" 98 +:+ "╝" +:+ String Str.nl EmptyString
  | RequestTitle call_id =>
      "║ vLLM API CALL #" +:+ format_03d call_id +:+ " - REQUEST"
        +:+ Str.repeat " " 70 +:+ "║"
  | ModelLine model => "║ Model: " +:+ model +:+ " ║"
  | MessagesLine count =>
      "║ Messages: " +:+ Str.of_nat count +:+ " message(s)"
        +:+ Str.repeat " " 73 +:+ "║"
  | ExtraBodyHeader => "║ Extra body parameters:" +:+ Str.repeat " " 75 +:+ "║"
  | ExtraBodyParam key value => "║   " +:+ key +:+ ": " +:+ value +:+ " ║"
  | ResponseTitle call_id =>
      "║ vLLM API CALL #" +:+ format_03d call_id +:+ " - RESPONSE (CreateResult)"
        +:+ Str.repeat " " 52 +:+ "║"
  | ContentHeader =>
      "║ CONTENT (Final Answer Channel):" +:+ Str.repeat " " 65 +:+ "║"
  | ItemRow idx row => "║ [" +:+ Str.of_nat idx +:+ "] " +:+ row +:+ " ║"
  | ItemContinuationRow row => "║     " +:+ row +:+ " ║"
  | ContentRow row => "║ " +:+ row +:+ " ║"
  | ThoughtHeader =>
      "║ THOUGHT (Reasoning Channel):" +:+ Str.repeat " " 68 +:+ "║"
  | ThoughtRow row => "║ " +:+ row +:+ " ║"
  | UsageHeader => "║ USAGE STATISTICS:" +:+ Str.repeat " " 80 +:+ "║"
  | PromptTokens count => "║   Prompt tokens: " +:+ count +:+ " ║"
  | CompletionTokens count => "║   Completion tokens: " +:+ count +:+ " ║"
  | TotalTokens count => "║   Total tokens: " +:+ count +:+ " ║"
  | FinishReason reason => "║ Finish reason: " +:+ reason +:+ " ║"
  | SummaryTitle => "║ VLLM RESPONSE SUMMARY" +:+ Str.repeat " " 75 +:+ "║"
  | TotalCalls count => "║ Total API calls: " +:+ count +:+ " ║"
  | CallHeader call_id =>
      "║ Call #" +:+ format_03d call_id +:+ ":" +:+ Str.repeat " " 87 +:+ "║"
  | HasContent flag => "║   Has content: " +:+ flag +:+ " ║"
  | HasThought flag => "║   Has thought: " +:+ flag +:+ " ║"
  end.

(** ** Logging computations

    A computation that logs and may raise: the lines emitted so far stay
    emitted when an exception stops it. *)

Definition logged (A : Type) : Type := list line * result A.

#[export] Instance logged_ret : MRet logged := λ A a, ([], Return a).

#[export] Instance logged_bind : MBind logged := λ A B k m,
  match m with
  | (l1, Return a) => let '(l2, r) := k a in (l1 ++ l2, r)
  | (l1, Raise e) => (l1, Raise e)
  end.

(** [logger.info(l)] *)
Definition info (l : line) : logged unit := ([l], Return tt).

(** The value of an expression that may raise, before anything is logged. *)
Definition eval {A} (r : result A) : logged A := ([], r).

(** [for x in xs: body(x)] *)
Fixpoint for_each {A} (xs : list A) (body : A → logged unit) : logged unit :=
  match xs with
  | [] => mret tt
  | x :: xs' => body x ;; for_each xs' body
  end.

(** [if c: body] *)
Definition when (c : bool) (body : logged unit) : logged unit :=
  if c then body else mret tt.

(** ** The client *)

Module DebugVLLMClient.

(** An entry of [self.raw_responses]. *)
Record call_record := {
  call_id : nat;
  response : Response;
  has_content : bool;
  has_thought : bool
}.

Record client := {
  raw_responses : list call_record;
  call_count : nat
}.

(** [__init__] *)
Definition init : client := {| raw_responses := []; call_count := 0 |}.

(** *** The wrapping loop

    [while line: logger.info(f"... {line[:W]:<Ws} ..."); line = line[W:]]
    gives the rows it emits.  The loop ends because the slice width is
    positive. *)

Section Wrap.

Variable W : nat.
Hypothesis W_pos : 0 < W.

Equations wrap_rows (line : string) : list string by wf (Str.len line) lt :=
  wrap_rows EmptyString := [];
  wrap_rows (String c s) :=
    Str.ljust W (Str.take W (String c s)) :: wrap_rows (Str.drop W (String c s)).
Next Obligation.
  destruct W as [|w]; [lia|]. simpl. clear.
  revert s. induction w as [|w IH]; intros [|c' s]; simpl in *; try lia.
  specialize (IH s). lia.
Qed.

End Wrap.

Definition width_96 : 0 < 96 := Nat.lt_0_succ 95.
Definition width_91 : 0 < 91 := Nat.lt_0_succ 90.

(** [for line in text.split("\n"): while line: ...], lines 81-84 and 93-96. *)
Definition wrap_text (row : string → line) (text : string) : logged unit :=
  for_each (Str.split_nl text) (λ ln,
    for_each (wrap_rows 96 width_96 ln) (λ r, info (row r))).

(** The body of the loop over a list content, lines 73-78. *)
Definition log_item (idx : nat) (item : scalar) : logged unit :=
  info (ItemRow idx (Str.ljust 91 (Str.take 91 (py_str item)))) ;;
  for_each (wrap_rows 91 width_91 (Str.drop 91 (py_str item)))
    (λ r, info (ItemContinuationRow r)).

(** [for idx, item in enumerate(xs): body(idx, item)], counting from [idx]. *)
Fixpoint for_enumerate {A} (idx : nat) (xs : list A)
    (body : nat → A → logged unit) : logged unit :=
  match xs with
  | [] => mret tt
  | x :: xs' => body idx x ;; for_enumerate (S idx) xs' body
  end.

(** *** [create]: the request block, lines 35-47 *)

Definition log_request (call_id : nat) (messages : list scalar)
    (kwargs : gmap string kwval) : logged unit :=
  info Top ;;
  info (RequestTitle call_id) ;;
  info Mid ;;
  model ← eval (format_s_kw 91 (default (KScalar (VStr "N/A")) (kwargs !! "model"))) ;
  info (ModelLine model) ;;
  info (MessagesLine (length messages)) ;;
  match kwargs !! "extra_body" with
  | Some extra_body =>
      info ExtraBodyHeader ;;
      kvs ← eval (items extra_body) ;
      for_each kvs (λ kv,
        value ← eval (format_s 86 kv.2) ;
        info (ExtraBodyParam kv.1 value))
  | None => mret tt
  end ;;
  info Bottom.

(** *** [create]: the response block, lines 61-112 *)

(** Lines 66-84 *)
Definition log_content (r : Response) : logged unit :=
  match content r with
  | Some c =>
      when (content_truthy c) (
        info ContentHeader ;;
        info Sep ;;
        match c with
        | CList elems => for_enumerate 0 elems log_item
        | CScalar v => wrap_text ContentRow (py_str v)
        end)
  | None => mret tt
  end.

(** Lines 87-96 *)
Definition log_thought (r : Response) : logged unit :=
  match thought r with
  | Some t =>
      when (truthy t) (
        info Sep ;;
        info ThoughtHeader ;;
        info Sep ;;
        wrap_text ThoughtRow (py_str t))
  | None => mret tt
  end.

(** Lines 99-105; an object that is not [None] is true. *)
Definition log_usage (r : Response) : logged unit :=
  match usage r with
  | Some (Some u) =>
      info Sep ;;
      info UsageHeader ;;
      prompt ← eval (format_d 82 (prompt_tokens u)) ;
      info (PromptTokens prompt) ;;
      completion ← eval (format_d 78 (completion_tokens u)) ;
      info (CompletionTokens completion) ;;
      match total_tokens u with
      | Some total =>
          total' ← eval (format_d 83 total) ;
          info (TotalTokens total')
      | None => mret tt
      end
  | Some None | None => mret tt
  end.

(** Lines 108-110 *)
Definition log_finish_reason (r : Response) : logged unit :=
  match finish_reason r with
  | Some reason =>
      info Sep ;;
      reason' ← eval (format_s 82 reason) ;
      info (FinishReason reason')
  | None => mret tt
  end.

Definition log_response (call_id : nat) (r : Response) : logged unit :=
  info Top ;;
  info (ResponseTitle call_id) ;;
  info Mid ;;
  log_content r ;;
  log_thought r ;;
  log_usage r ;;
  log_finish_reason r ;;
  info Bottom.

(** *** [create]

    [super_create] is the inherited [create]: given the messages and the
    keyword arguments it returns a response or raises.  The result is the
    client after the call, the lines logged, and what the caller gets.
    Lines 54-58 only test the type of [self._client] and do nothing. *)

Definition delegate : Type :=
  list scalar → gmap string kwval → result Response.

Definition bump (self : client) : client :=
  {| raw_responses := raw_responses self; call_count := S (call_count self) |}.

Definition record_of (call_id : nat) (r : Response) : call_record :=
  {| call_id := call_id;
     response := r;
     has_content := match content r with Some c => content_truthy c | None => false end;
     has_thought := match thought r with Some t => truthy t | None => false end |}.

Definition store (self : client) (rec : call_record) : client :=
  {| raw_responses := raw_responses self ++ [rec]; call_count := call_count self |}.

Definition create (self : client) (messages : list scalar)
    (kwargs : gmap string kwval) (super_create : delegate)
    : client * list line * result Response :=
  let self := bump self in                                   (* line 31 *)
  let call_id := call_count self in                          (* line 32 *)
  match log_request call_id messages kwargs with
  | (l1, Raise e) => (self, l1, Raise e)
  | (l1, Return _) =>
      match super_create messages kwargs with                (* line 50 *)
      | Raise e => (self, l1, Raise e)
      | Return r =>
          match log_response call_id r with
          | (l2, Raise e) => (self, l1 ++ l2, Raise e)
          | (l2, Return _) =>
              (store self (record_of call_id r), l1 ++ l2, Return r)  (* 115-122 *)
          end
      end
  end.

(** *** [get_response_summary] *)

(** The loop of lines 132-137, [idx] counting from 1 and [n] the length of
    the whole history. *)
Fixpoint summary_entries (n idx : nat) (records : list call_record) : list line :=
  match records with
  | [] => []
  | rec :: records' =>
      [ CallHeader (call_id rec);
        HasContent (Str.ljust 84 (py_str (VBool (has_content rec))));
        HasThought (Str.ljust 84 (py_str (VBool (has_thought rec)))) ]
      ++ (if idx <? n then [Sep] else [])
      ++ summary_entries n (S idx) records'
  end.

(** The client after the call and the lines logged; nothing is assigned. *)
Definition get_response_summary (self : client) : client * list line :=
  (self,
   [ Top; SummaryTitle; Mid;
     TotalCalls (Str.ljust 82 (Str.of_nat (call_count self)));
     Sep ]
   ++ summary_entries (length (raw_responses self)) 1 (raw_responses self)
   ++ [ Bottom ]).

(** *** Runs: calls made one after the other on the same client *)

Record call := {
  c_messages : list scalar;
  c_kwargs : gmap string kwval;
  c_super : delegate
}.

(** What the delegate does when the call reaches it. *)
Definition outcome (c : call) : result Response :=
  c_super c (c_messages c) (c_kwargs c).

Fixpoint run (self : client) (calls : list call)
    : client * list (result Response) :=
  match calls with
  | [] => (self, [])
  | c :: calls' =>
      let '(self', _, out) := create self (c_messages c) (c_kwargs c) (c_super c) in
      let '(self'', outs) := run self' calls' in
      (self'', out :: outs)
  end.

End DebugVLLMClient.


(** ** The example driver, [examples/Multi_Server_Experiments/main.py] *)

Module Driver.

Definition DEFAULT_SYSTEM_PROMPT : string :=
  "You are a world-class chemist. Your task is to generate unique molecules "
  +:+ "based on the lead molecule provided by the user. The generated molecules "
  +:+ "should be chemically valid and diverse, exploring different chemical spaces "
  +:+ "while maintaining some structural similarity to the lead molecule. "
  +:+ "Provide the final answer in a clear and concise manner.".

Definition DEFAULT_USER_PROMPT : string :=
  "Generate a unique molecule based on the lead molecule provided. "
  +:+ "The lead molecule is CCO. Use SMILES format for the molecules. "
  +:+ "Ensure the generated molecule is chemically valid and unique, "
  +:+ "using the tools provided. Check the price of the generated molecule "
  +:+ "using the molecule pricing tool, and get a cheap molecule. "
  +:+ "Once you find a molecule that is unique (not known) and reasonably cheap "
  +:+ "(price <= $20), provide your final answer with the SMILES string and price. "
  +:+ "Do not continue searching indefinitely.".

(** [Optional[Union[str, list]]] *)
Inductive servers :=
| OneServer (s : string)
| Servers (l : list string).

Record Task := {
  system_prompt : string;
  user_prompt : string;
  server_urls : option servers;
  server_paths : option servers
}.

(** Modelled from the spec: the constructor of the base class [Task]
    ([charge/tasks/Task.py], not among the sources) builds the task from the
    prompts and the servers it is given, and keeps them as they are. *)
Definition Task_init (system_prompt user_prompt : string)
    (server_urls server_paths : option servers) : Task :=
  {| system_prompt := system_prompt;
     user_prompt := user_prompt;
     server_urls := server_urls;
     server_paths := server_paths |}.

(** [ChargeMultiServerTask.__init__] *)
Definition ChargeMultiServerTask (system_prompt user_prompt : option string)
    (server_urls server_paths : option servers) : Task :=
  let system_prompt :=
    match system_prompt with
    | None => DEFAULT_SYSTEM_PROMPT
    | Some given => given
    end in
  let user_prompt :=
    match user_prompt with
    | None => DEFAULT_USER_PROMPT
    | Some given => given
    end in
  Task_init system_prompt user_prompt server_urls server_paths.

(** What [parser.parse_args()] gives for the arguments declared here: both
    prompts have [default=None], so an option that is not on the command line
    reads [None], and one that is reads the string given. *)
Record args := {
  args_system_prompt : option string;
  args_user_prompt : option string;
  args_server_urls : option servers
}.

(** The task built at lines 102-107. *)
Definition mytask (a : args) : Task :=
  ChargeMultiServerTask (args_system_prompt a) (args_user_prompt a)
    (args_server_urls a)
    (Some (Servers ["stdio_server_1.py"; "stdio_server_2.py"])).

End Driver.

(** ** Notions the properties are stated with *)

(** The least [q] with [a <= q * b]. *)
Definition ceil_div (a b : nat) : nat := (a + b - 1) / b.

(** [line[i*W:(i+1)*W]]: what row [i] of a wrapped line holds before it is
    padded. *)
Definition slice (W : nat) (line : string) (i : nat) : string :=
  Str.take W (Str.drop (i * W) line).

Definition slices (W : nat) (line : string) : list string :=
  slice W line <$> seq 0 (ceil_div (Str.len line) W).

(** Values of the types the response and the options are documented with:
    the finish reason a string, the token counts integers, the model name
    and the values of [extra_body] strings. *)
Definition is_str (v : scalar) : bool :=
  match v with VStr _ => true | _ => false end.

Definition is_int (v : scalar) : bool :=
  match v with VInt _ | VBool _ => true | _ => false end.

Definition kwargs_typed (kwargs : gmap string kwval) : bool :=
  match kwargs !! "model" with
  | Some (KScalar v) => is_str v
  | Some (KDict _) => false
  | None => true
  end
  && match kwargs !! "extra_body" with
     | Some (KDict kvs) => forallb (λ kv, is_str kv.2) kvs
     | Some (KScalar _) => false
     | None => true
     end.

Definition usage_typed (u : usage_obj) : bool :=
  is_int (prompt_tokens u) && is_int (completion_tokens u)
  && from_option is_int true (total_tokens u).

Definition response_typed (r : Response) : bool :=
  match usage r with
  | Some (Some u) => usage_typed u
  | _ => true
  end
  && from_option is_str true (finish_reason r).

(** The section of the response block a line belongs to; the frame and the
    separators belong to none. *)
Inductive section := ContentSection | ThoughtSection | UsageSection | FinishSection.

Definition section_of (l : line) : option section :=
  match l with
  | ContentHeader | ItemRow _ _ | ItemContinuationRow _ | ContentRow _ =>
      Some ContentSection
  | ThoughtHeader | ThoughtRow _ => Some ThoughtSection
  | UsageHeader | PromptTokens _ | CompletionTokens _ | TotalTokens _ =>
      Some UsageSection
  | FinishReason _ => Some FinishSection
  | _ => None
  end.

(** Blocks of lines with a separator between two consecutive blocks and none
    after the last. *)
Fixpoint join_with (sep : list line) (blocks : list (list line)) : list line :=
  match blocks with
  | [] => []
  | [b] => b
  | b :: blocks' => b ++ sep ++ join_with sep blocks'
  end.

(** The three lines of a summary for one record. *)
Definition entry (rec : DebugVLLMClient.call_record) : list line :=
  [ CallHeader (DebugVLLMClient.call_id rec);
    HasContent (Str.ljust 84 (py_str (VBool (DebugVLLMClient.has_content rec))));
    HasThought (Str.ljust 84 (py_str (VBool (DebugVLLMClient.has_thought rec)))) ].

(** The identifiers of the per-call entries of a summary. *)
Definition call_headers (report : list line) : list nat :=
  omap (λ l, match l with CallHeader id => Some id | _ => None end) report.

(** A call with options of the documented types whose delegate returns a
    response of the documented types. *)
Definition call_ok (c : DebugVLLMClient.call) : bool :=
  kwargs_typed (DebugVLLMClient.c_kwargs c)
  && match DebugVLLMClient.outcome c with
     | Return r => response_typed r
     | Raise _ => false
     end.

(** ** Sample responses, delegates and calls *)

(** The response of the example scenario: a final answer, no thought, the
    three token counts and a finish reason. *)
Definition hello : Response :=
  {| obj_id := 1;
     content := Some (CScalar (VStr "Hello"));
     thought := Some VNone;
     usage := Some (Some {| prompt_tokens := VInt 10;
                            completion_tokens := VInt 5;
                            total_tokens := Some (VInt 15) |});
     finish_reason := Some (VStr "stop") |}.

(** A response without content and thought. *)
Definition silent : Response :=
  {| obj_id := 2;
     content := Some (CScalar VNone);
     thought := Some VNone;
     usage := Some (Some {| prompt_tokens := VInt 10;
                            completion_tokens := VInt 0;
                            total_tokens := None |});
     finish_reason := Some (VStr "length") |}.

(** A response without content and thought, with its token counts, whose
    finish reason is [None]. *)
Definition silent_none_reason : Response :=
  {| obj_id := 5;
     content := Some (CScalar VNone);
     thought := Some VNone;
     usage := Some (Some {| prompt_tokens := VInt 10;
                            completion_tokens := VInt 0;
                            total_tokens := None |});
     finish_reason := Some VNone |}.

(** A response whose prompt count is a string. *)
Definition string_count : Response :=
  {| obj_id := 6;
     content := Some (CScalar (VStr "Hello"));
     thought := Some VNone;
     usage := Some (Some {| prompt_tokens := VStr "10";
                            completion_tokens := VInt 5;
                            total_tokens := None |});
     finish_reason := Some (VStr "stop") |}.

(** A response whose finish reason is [None]. *)
Definition none_reason : Response :=
  {| obj_id := 3;
     content := Some (CScalar (VStr "Hello"));
     thought := Some VNone;
     usage := None;
     finish_reason := Some VNone |}.

(** A delegate that returns [r], one that raises [e], and a call with one
    message and no option. *)
Definition answers (r : Response) : DebugVLLMClient.delegate := λ _ _, Return r.

Definition fails (e : exn) : DebugVLLMClient.delegate := λ _ _, Raise e.

Definition ask (super : DebugVLLMClient.delegate) : DebugVLLMClient.call :=
  {| DebugVLLMClient.c_messages := [VStr "hi"];
     DebugVLLMClient.c_kwargs := ∅;
     DebugVLLMClient.c_super := super |}.

(** ** The second client, [RawVLLMResponseCapture] *)

Module RawVLLMResponseCapture.

(** [s.replace("\n\n", " ")]: pairs of newlines, taken from the left and
    without overlap. *)
Fixpoint replace_newline_pairs (s : string) : string :=
  match s with
  | EmptyString => EmptyString
  | String c s' =>
      match s' with
      | String c' s'' =>
          if Ascii.eqb c Str.nl && Ascii.eqb c' Str.nl
          then String " " (replace_newline_pairs s'')
          else String c (replace_newline_pairs s')
      | EmptyString => String c EmptyString
      end
  end.

(** [s.replace("\n", " ")] *)
Fixpoint replace_newlines (s : string) : string :=
  match s with
  | EmptyString => EmptyString
  | String c s' =>
      String (if Ascii.eqb c Str.nl then " "%char else c) (replace_newlines s')
  end.

(** What [hasattr(response, a) and response.a] evaluates to: [False]
    without the attribute, the value of the attribute otherwise. *)
Inductive held (A : Type) :=
| NoAttribute
| Attribute (a : A).
Arguments NoAttribute {A}.
Arguments Attribute {A} a.

Definition attribute {A} (field : option A) : held A :=
  match field with
  | Some a => Attribute a
  | None => NoAttribute
  end.

(** [bool(h)] *)
Definition held_truthy {A} (truth : A → bool) (h : held A) : bool :=
  match h with
  | NoAttribute => false
  | Attribute a => truth a
  end.

(** An entry of [self.raw_json_responses]. *)
Record call_record := {
  call_id : nat;
  response : Response;
  has_content : held content_value;
  has_thought : held scalar
}.

Record client := {
  raw_json_responses : list call_record;
  call_count : nat
}.

(** [__init__] *)
Definition init : client := {| raw_json_responses := []; call_count := 0 |}.

(** One constructor for each [logger.info] statement of [create]. *)
Inductive line :=
| Rule                                      (* "\n" + "="*100 *)
| SendingRequest (call_id : nat)
| RequestRule                               (* "   " + "="*100 *)
| ResponseReceived
| ResponseRule                              (* "   " + "-"*100 *)
| ContentIsList (count : nat)
| ContentItem (idx : nat) (type_name text : string)
| ContentLength (chars : nat)
| ContentText (text : string)
| ThoughtLength (chars : nat)
| ThoughtPreview (text : string)
| ThoughtMore (chars : nat)
| Usage (prompt completion : string)
| FinishReason (reason : string)
| Closing.                                  (* "\n" + "="*100 + "\n" *)

Definition render (l : line) : string :=
  match l with
  | Rule => String Str.nl (Str.repeat "=" 100)
  | SendingRequest call_id =>
      "   vLLM API CALL #" +:+ format_03d call_id +:+ " - Sending request..."
  | RequestRule => "   " +:+ Str.repeat "=" 100
  | ResponseReceived => String Str.nl "   RESPONSE RECEIVED (CreateResult)"
  | ResponseRule => "   " +:+ Str.repeat "-" 100
  | ContentIsList count =>
      "   Content is a list with " +:+ Str.of_nat count +:+ " item(s)"
  | ContentItem idx type_name text =>
      "   Content[" +:+ Str.of_nat idx +:+ "] (type: " +:+ type_name +:+ "): "
        +:+ text
  | ContentLength chars => "   Content length: " +:+ Str.of_nat chars +:+ " chars"
  | ContentText text => "      " +:+ text
  | ThoughtLength chars => "   Thought length: " +:+ Str.of_nat chars +:+ " chars"
  | ThoughtPreview text => "   Thought preview: " +:+ text
  | ThoughtMore chars => "      ... (" +:+ Str.of_nat chars +:+ " more chars)"
  | Usage prompt completion =>
      "   Usage: prompt=" +:+ prompt +:+ ", completion=" +:+ completion
  | FinishReason reason => "   Finish reason: " +:+ reason
  | Closing => String Str.nl (Str.repeat "=" 100) +:+ String Str.nl EmptyString
  end.

Section Create.

(** [type(o).__name__] for an object that is not [None], a [bool], an [int]
    or a [str]: the class of such an object is not part of [scalar]. *)
Variable object_class : bool → string → string.

(** [type(v).__name__] *)
Definition type_name (v : scalar) : string :=
  match v with
  | VNone => "NoneType"
  | VBool _ => "bool"
  | VInt _ => "int"
  | VStr _ => "str"
  | VObj truth text => object_class truth text
  end.

(** [for idx, item in enumerate(items)], line 184-186, counting from [idx]. *)
Fixpoint log_items (idx : nat) (elems : list scalar) : list line :=
  match elems with
  | [] => []
  | item :: elems' =>
      ContentItem idx (type_name item) (py_str item) :: log_items (S idx) elems'
  end.

(** Lines 179-190 *)
Definition log_content (has_content : held content_value) : list line :=
  match has_content with
  | Attribute c =>
      if content_truthy c then
        match c with
        | CList elems => ContentIsList (length elems) :: log_items 0 elems
        | CScalar v => [ContentLength (Str.len (py_str v)); ContentText (py_str v)]
        end
      else []
  | NoAttribute => []
  end.

(** Line 196 *)
Definition thought_str (t : scalar) : string :=
  replace_newlines (replace_newline_pairs (py_str t)).

(** Lines 195-200 *)
Definition log_thought (has_thought : held scalar) : list line :=
  match has_thought with
  | Attribute t =>
      if truthy t then
        [ ThoughtLength (Str.len (thought_str t));
          ThoughtPreview (Str.take 200 (thought_str t)) ]
        ++ (if 200 <? Str.len (thought_str t)
            then [ThoughtMore (Str.len (thought_str t) - 200)]
            else [])
      else []
  | NoAttribute => []
  end.

(** Lines 203-204; the counts are formatted without a format specification,
    that is with [str]. *)
Definition log_usage (r : Response) : list line :=
  match usage r with
  | Some (Some u) =>
      [Usage (py_str (prompt_tokens u)) (py_str (completion_tokens u))]
  | Some None | None => []
  end.

(** Lines 207-208 *)
Definition log_finish_reason (r : Response) : list line :=
  match finish_reason r with
  | Some reason => [FinishReason (py_str reason)]
  | None => []
  end.

(** Lines 173-210 *)
Definition log_response (r : Response) : list line :=
  [ResponseReceived; ResponseRule]
  ++ log_content (attribute (content r))
  ++ log_thought (attribute (thought r))
  ++ log_usage r
  ++ log_finish_reason r
  ++ [Closing].

Definition bump (self : client) : client :=
  {| raw_json_responses := raw_json_responses self;
     call_count := S (call_count self) |}.

Definition record_of (call_id : nat) (r : Response) : call_record :=
  {| call_id := call_id;
     response := r;
     has_content := attribute (content r);
     has_thought := attribute (thought r) |}.

Definition store (self : client) (rec : call_record) : client :=
  {| raw_json_responses := raw_json_responses self ++ [rec];
     call_count := call_count self |}.

(** [create]: the client after the call, the lines logged and what the
    caller gets. *)
Definition create (self : client) (messages : list scalar)
    (kwargs : gmap string kwval) (super_create : DebugVLLMClient.delegate)
    : client * list line * result Response :=
  let self := bump self in                                   (* line 156 *)
  let call_id := call_count self in                          (* line 157 *)
  let request := [Rule; SendingRequest call_id; RequestRule] in
  match super_create messages kwargs with                    (* line 166 *)
  | Raise e => (self, request, Raise e)
  | Return r =>
      (store self (record_of call_id r), request ++ log_response r, Return r)
  end.

(** Calls made one after the other on the same client. *)
Fixpoint run (self : client) (calls : list DebugVLLMClient.call)
    : client * list (result Response) :=
  match calls with
  | [] => (self, [])
  | c :: calls' =>
      let '(self', _, out) :=
        create self (DebugVLLMClient.c_messages c) (DebugVLLMClient.c_kwargs c)
          (DebugVLLMClient.c_super c) in
      let '(self'', outs) := run self' calls' in
      (self'', out :: outs)
  end.

End Create.

End RawVLLMResponseCapture.

(** ** The end of the driver, lines 119-135 of [main.py] *)

Module Main.

(** What [runner.model_client] is: one of the two clients of
    [debug_vllm_client.py], or a client with neither [get_response_summary]
    nor [raw_json_responses]. *)
Inductive model_client :=
| Debug (c : DebugVLLMClient.client)
| Raw (c : RawVLLMResponseCapture.client)
| Plain.

Inductive logged_line :=
| CompletedRule                             (* "\n" + "="*100 *)
| TaskCompleted
| PlainRule                                 (* "="*100 *)
| FinalResults (results : string)
| Blank                                     (* "\n" *)
| Summary (l : line)
| Captured (count : nat)
| ExperimentComplete
| ClosingRule.                              (* "="*100 + "\n" *)

Definition render_line (l : logged_line) : string :=
  match l with
  | CompletedRule => String Str.nl (Str.repeat "=" 100)
  | TaskCompleted => "TASK COMPLETED"
  | PlainRule => Str.repeat "=" 100
  | FinalResults results =>
      String Str.nl "Final Results:" +:+ String Str.nl results
  | Blank => String Str.nl EmptyString
  | Summary l => render l
  | Captured count =>
      String Str.nl "Captured " +:+ Str.of_nat count +:+ " raw vLLM responses"
  | ExperimentComplete => "EXPERIMENT COMPLETE"
  | ClosingRule => Str.repeat "=" 100 +:+ String Str.nl EmptyString
  end.

(** Lines 125-131; [runner] is [None] when the runner has no attribute
    [model_client]. *)
Definition report_client (runner : option model_client) : list logged_line :=
  match runner with
  | Some (Debug c) =>
      Blank :: (Summary <$> (DebugVLLMClient.get_response_summary c).2)
  | Some (Raw c) =>
      [Captured (length (RawVLLMResponseCapture.raw_json_responses c))]
  | Some Plain | None => []
  end.

(** Lines 119-135, [results] being [str(results)]. *)
Definition finish (results : string) (runner : option model_client) : list logged_line :=
  [CompletedRule; TaskCompleted; PlainRule; FinalResults results]
  ++ report_client runner
  ++ [CompletedRule; ExperimentComplete; ClosingRule].

End Main.

(** ** Notions the further properties are stated with *)

(** The exceptions the formatting and the attribute access of
    [DebugVLLMClient.create] raise themselves. *)
Definition own_error (e : exn) : Prop :=
  e = TypeError ∨ e = ValueError ∨ e = AttributeError.

(** Whether a string has a newline, the string without its newlines, and
    the pieces joined by newlines. *)
Fixpoint has_nl (s : string) : bool :=
  match s with
  | EmptyString => false
  | String c s' => Ascii.eqb c Str.nl || has_nl s'
  end.

Fixpoint remove_nl (s : string) : string :=
  match s with
  | EmptyString => EmptyString
  | String c s' => if Ascii.eqb c Str.nl then remove_nl s' else String c (remove_nl s')
  end.

Fixpoint join_nl (pieces : list string) : string :=
  match pieces with
  | [] => EmptyString
  | [p] => p
  | p :: pieces' => p +:+ String Str.nl (join_nl pieces')
  end.

(** The text of the rows a block of text is logged on, before padding. *)
Definition row_texts (text : string) : list string :=
  flat_map (slices 96) (Str.split_nl text).

(** A call of [DebugVLLMClient.create] gives the response [r] to its
    caller. *)
Definition gives (c : DebugVLLMClient.call) (r : Response) : Prop :=
  DebugVLLMClient.outcome c = Return r
  ∧ kwargs_typed (DebugVLLMClient.c_kwargs c) = true
  ∧ response_typed r = true.

(** The records of the calls that returned, the first call having the
    identifier [base + 1]. *)
Fixpoint returned_records (base : nat) (outs : list (result Response))
    : list DebugVLLMClient.call_record :=
  match outs with
  | [] => []
  | Return r :: outs' =>
      DebugVLLMClient.record_of (S base) r :: returned_records (S base) outs'
  | Raise _ :: outs' => returned_records (S base) outs'
  end.

Fixpoint raw_returned_records (base : nat) (outs : list (result Response))
    : list RawVLLMResponseCapture.call_record :=
  match outs with
  | [] => []
  | Return r :: outs' =>
      RawVLLMResponseCapture.record_of (S base) r
        :: raw_returned_records (S base) outs'
  | Raise _ :: outs' => raw_returned_records (S base) outs'
  end.

(** Everything [DebugVLLMClient.create] logs over calls made one after the
    other. *)
Fixpoint run_log (self : DebugVLLMClient.client) (calls : list DebugVLLMClient.call)
    : list line :=
  match calls with
  | [] => []
  | c :: calls' =>
      let res := DebugVLLMClient.create self (DebugVLLMClient.c_messages c)
                   (DebugVLLMClient.c_kwargs c) (DebugVLLMClient.c_super c) in
      res.1.2 ++ run_log res.1.1 calls'
  end.

(** The identifiers in the request titles of a log. *)
Definition request_titles (log : list line) : list nat :=
  omap (λ l, match l with RequestTitle id => Some id | _ => None end) log.

(** The model name and the lines of the extra parameters of a request
    block. *)
Definition model_name (kwargs : gmap string kwval) : string :=
  match kwargs !! "model" with
  | Some (KScalar (VStr s)) => s
  | _ => "N/A"
  end.

Definition extra_body_lines (kwargs : gmap string kwval) : list line :=
  match kwargs !! "extra_body" with
  | Some (KDict kvs) =>
      ExtraBodyHeader
        :: ((λ kv, ExtraBodyParam kv.1 (Str.ljust 86 (py_str kv.2))) <$> kvs)
  | _ => []
  end.

(** A row of the response block has the width of its frame. *)
Definition row_fits (l : line) : Prop :=
  match l with
  | ContentRow row | ThoughtRow row => Str.len row = 96
  | ItemRow _ row | ItemContinuationRow row => Str.len row = 91
  | _ => True
  end.

(** Options whose second extra parameter is an integer. *)
Definition mixed_extra_body : gmap string kwval :=
  {[ "extra_body" := KDict [("reasoning_effort", VStr "high"); ("top_k", VInt 20)] ]}.

(** Options with a model name and one extra parameter, both strings. *)
Definition typed_options : gmap string kwval :=
  <[ "model" := KScalar (VStr "gpt-oss") ]>
    {[ "extra_body" := KDict [("reasoning_effort", VStr "high")] ]}.

(** The number of calls that returned. *)
Fixpoint count_returned (outs : list (result Response)) : nat :=
  match outs with
  | [] => 0
  | Return _ :: outs' => S (count_returned outs')
  | Raise _ :: outs' => count_returned outs'
  end.

(** A record of [DebugVLLMClient] and a record of [RawVLLMResponseCapture]
    for the same call: the same identifier and response, and flags that are
    the truth values of what the second record holds. *)
Definition same_call (d : DebugVLLMClient.call_record)
    (w : RawVLLMResponseCapture.call_record) : Prop :=
  DebugVLLMClient.call_id d = RawVLLMResponseCapture.call_id w
  ∧ DebugVLLMClient.response d = RawVLLMResponseCapture.response w
  ∧ DebugVLLMClient.has_content d
      = RawVLLMResponseCapture.held_truthy content_truthy
          (RawVLLMResponseCapture.has_content w)
  ∧ DebugVLLMClient.has_thought d
      = RawVLLMResponseCapture.held_truthy truthy
          (RawVLLMResponseCapture.has_thought w).

(** The lines of the summary in what the driver logs. *)
Definition summary_lines (log : list Main.logged_line) : list line :=
  omap (λ l, match l with Main.Summary s => Some s | _ => None end) log.

(** Every object has the class [FunctionCall]. *)
Definition function_calls : bool → string → string := λ _ _, "FunctionCall".

(** The indices of the item rows of a log. *)
Definition item_indices (log : list line) : list nat :=
  omap (λ l, match l with ItemRow idx _ => Some idx | _ => None end) log.

(** A content of two tool calls, the first one longer than a row. *)
Definition two_calls : Response :=
  {| obj_id := 4;
     content := Some (CList [VObj true (Str.repeat "x" 100); VObj true "y"]);
     thought := None;
     usage := None;
     finish_reason := Some (VStr "function_calls") |}.

(** * Properties *)

(** ** Strings *)

Module StrFacts.
Import Str.

Lemma append_nil_l t : EmptyString +:+ t = t.
Proof. reflexivity. Qed.

Lemma append_cons c s t : String c s +:+ t = String c (s +:+ t).
Proof. reflexivity. Qed.

Lemma len_append s t : len (s +:+ t) = len s + len t.
Proof.
  unfold len. induction s as [|c s IH]; [done|].
  rewrite append_cons. simpl. by rewrite IH.
Qed.

Lemma len_repeat_char (c : ascii) n : len (repeat (String c EmptyString) n) = n.
Proof.
  unfold len. induction n as [|n IH]; [done|].
  simpl. rewrite ?append_cons, ?append_nil_l. simpl. by rewrite IH.
Qed.

Lemma len_take n s : len (take n s) = n `min` len s.
Proof.
  unfold len. revert s. induction n as [|n IH]; intros [|c s]; simpl; try done.
  by rewrite IH.
Qed.

Lemma len_drop n s : len (drop n s) = len s - n.
Proof.
  unfold len. revert s. induction n as [|n IH]; intros [|c s]; simpl; try done.
Qed.

Lemma take_append_drop n s : take n s +:+ drop n s = s.
Proof.
  revert s. induction n as [|n IH]; intros [|c s]; try done.
  simpl. by rewrite append_cons, IH.
Qed.

Lemma drop_add a b s : drop a (drop b s) = drop (b + a) s.
Proof.
  revert s. induction b as [|b IH]; intros s; [done|].
  destruct s as [|c s]; simpl; [by destruct a|]. apply IH.
Qed.

Lemma len_ljust width s : len (ljust width s) = width `max` len s.
Proof. unfold ljust. rewrite len_append, len_repeat_char. lia. Qed.

Lemma concat_cons p ps : concat (p :: ps) = p +:+ concat ps.
Proof. reflexivity. Qed.

End StrFacts.

(** ** The wrapping loop *)

Module WrapFacts.
Import DebugVLLMClient StrFacts.

Lemma ceil_div_0 W : 0 < W → ceil_div 0 W = 0.
Proof. intros. unfold ceil_div. apply Nat.div_small. lia. Qed.

Lemma ceil_div_step W L : 0 < W → 0 < L → ceil_div L W = S (ceil_div (L - W) W).
Proof.
  intros HW HL. unfold ceil_div. destruct (decide (L ≤ W)) as [Hle|Hgt].
  - replace (L - W + W - 1) with (W - 1) by lia.
    rewrite (Nat.div_small (W - 1)) by lia.
    symmetry. apply (Nat.div_unique _ _ 1 (L - 1)); lia.
  - replace (L + W - 1) with ((L - W + W - 1) + 1 * W) by lia.
    rewrite Nat.div_add by lia. lia.
Qed.

Lemma ceil_div_covers W L : 0 < W → L ≤ ceil_div L W * W.
Proof.
  intros HW. unfold ceil_div.
  pose proof (Nat.div_mod (L + W - 1) W ltac:(lia)) as Hdm.
  pose proof (Nat.mod_upper_bound (L + W - 1) W ltac:(lia)). nia.
Qed.

Lemma ceil_div_tight W L i : 0 < W → i < ceil_div L W → i * W < L.
Proof.
  intros HW. unfold ceil_div.
  pose proof (Nat.div_mod (L + W - 1) W ltac:(lia)) as Hdm.
  pose proof (Nat.mod_upper_bound (L + W - 1) W ltac:(lia)). nia.
Qed.

Lemma slice_0 W line : slice W line 0 = Str.take W line.
Proof. reflexivity. Qed.

Lemma slice_S W line i : slice W line (S i) = slice W (Str.drop W line) i.
Proof. unfold slice. by rewrite drop_add. Qed.

Lemma slices_empty W : 0 < W → slices W EmptyString = [].
Proof. intros. unfold slices. simpl. by rewrite ceil_div_0. Qed.

Lemma slices_cons W line :
  0 < W → 0 < Str.len line →
  slices W line = Str.take W line :: slices W (Str.drop W line).
Proof.
  intros HW HL. unfold slices. rewrite (ceil_div_step W _ HW HL), len_drop.
  cbn [seq fmap list_fmap]. rewrite slice_0. f_equal.
  rewrite <- fmap_S_seq, <- list_fmap_compose.
  apply list_fmap_ext. intros _ i _. simpl. apply slice_S.
Qed.

Lemma wrap_rows_slices W (HW : 0 < W) line :
  wrap_rows W HW line = Str.ljust W <$> slices W line.
Proof.
  funelim (wrap_rows W HW line).
  - by rewrite slices_empty.
  - rewrite slices_cons by (done || (unfold Str.len; simpl; lia)).
    rewrite fmap_cons. f_equal. done.
Qed.

Lemma concat_slices W line : 0 < W → Str.concat (slices W line) = line.
Proof.
  intros HW. remember (Str.len line) as n eqn:Hn.
  revert line Hn. induction (lt_wf n) as [n _ IH]. intros line ->.
  destruct line as [|c s].
  - by rewrite slices_empty.
  - rewrite slices_cons by (done || (unfold Str.len; simpl; lia)).
    rewrite concat_cons, (IH (Str.len (Str.drop W (String c s)))); [apply take_append_drop| |done].
    rewrite len_drop. unfold Str.len. simpl. lia.
Qed.

Lemma slices_length W line : length (slices W line) = ceil_div (Str.len line) W.
Proof. unfold slices. by rewrite length_fmap, length_seq. Qed.

Lemma slice_len_le W line i : Str.len (slice W line i) ≤ W.
Proof. unfold slice. rewrite len_take. lia. Qed.

Lemma slices_nonempty W line :
  0 < W → Forall (λ p, 0 < Str.len p ≤ W) (slices W line).
Proof.
  intros HW. unfold slices. apply Forall_fmap, Forall_forall.
  intros i Hi. apply elem_of_seq in Hi. simpl. split; [|apply slice_len_le].
  unfold slice. rewrite len_take, len_drop.
  pose proof (ceil_div_tight W (Str.len line) i HW ltac:(lia)). lia.
Qed.

Lemma rows_full_width W line :
  Forall (λ r, Str.len r = W) (Str.ljust W <$> slices W line).
Proof.
  apply Forall_fmap, Forall_forall. intros p Hp. simpl.
  unfold slices in Hp. apply list_elem_of_fmap in Hp as (i & -> & _).
  rewrite len_ljust. pose proof (slice_len_le W line i). lia.
Qed.

End WrapFacts.

(** ** Logging computations *)

Module LogFacts.
Import DebugVLLMClient.

Lemma bind_return {A B} (m : logged A) (k : A → logged B) l a :
  m = (l, Return a) → m ≫= k = (l ++ (k a).1, (k a).2).
Proof. intros ->. unfold mbind, logged_bind. by destruct (k a). Qed.

Lemma bind_raise {A B} (m : logged A) (k : A → logged B) l e :
  m = (l, Raise e) → m ≫= k = (l, Raise e).
Proof. by intros ->. Qed.

Lemma bind_info {B} (x : line) (k : unit → logged B) :
  info x ≫= k = (x :: (k tt).1, (k tt).2).
Proof. by rewrite (bind_return _ _ [x] tt). Qed.

Lemma for_each_info {A} (f : A → line) xs :
  for_each xs (λ x, info (f x)) = (f <$> xs, Return tt).
Proof.
  induction xs as [|x xs IH]; [done|].
  cbn [for_each]. rewrite bind_info, IH. done.
Qed.

Lemma for_each_returns {A} (xs : list A) (body : A → logged unit) :
  (∀ x, x ∈ xs → body x = ((body x).1, Return tt)) →
  for_each xs body = (flat_map (λ x, (body x).1) xs, Return tt).
Proof.
  induction xs as [|x xs IH]; intros Hbody; [done|].
  cbn [for_each flat_map].
  rewrite (bind_return _ _ _ tt (Hbody x ltac:(left))).
  rewrite IH; [done|]. intros y Hy. apply Hbody. by right.
Qed.

Lemma wrap_text_rows row text :
  wrap_text row text =
    (flat_map (λ ln, row <$> wrap_rows 96 width_96 ln) (Str.split_nl text),
     Return tt).
Proof.
  unfold wrap_text. rewrite for_each_returns.
  - f_equal. apply flat_map_ext. intros ln. by rewrite for_each_info.
  - intros ln _. by rewrite for_each_info.
Qed.

Lemma log_item_rows idx item :
  log_item idx item =
    (ItemRow idx (Str.ljust 91 (Str.take 91 (py_str item)))
       :: (ItemContinuationRow <$> wrap_rows 91 width_91 (Str.drop 91 (py_str item))),
     Return tt).
Proof. unfold log_item. by rewrite bind_info, for_each_info. Qed.

Lemma for_enumerate_returns {A} idx (xs : list A) body :
  (∀ i x, body i x = ((body i x).1, Return tt)) →
  (for_enumerate idx xs body).2 = Return tt.
Proof.
  intros Hbody. revert idx. induction xs as [|x xs IH]; intros idx; [done|].
  cbn [for_enumerate]. rewrite (bind_return _ _ _ tt (Hbody idx x)). apply IH.
Qed.

Lemma bind_snd_return {A B} (m : logged A) (k : A → logged B) a :
  m.2 = Return a → (m ≫= k).2 = (k a).2.
Proof.
  intros H. destruct m as [l r]. simpl in H. subst r.
  by rewrite (bind_return _ _ l a).
Qed.

Lemma bind_snd_raise {A B} (m : logged A) (k : A → logged B) e :
  m.2 = Raise e → (m ≫= k).2 = Raise e.
Proof. intros H. destruct m as [l r]. simpl in H. by subst r. Qed.

Lemma bind_fst_return {A B} (m : logged A) (k : A → logged B) a :
  m.2 = Return a → (m ≫= k).1 = m.1 ++ (k a).1.
Proof.
  intros H. destruct m as [l r]. simpl in H. subst r.
  by rewrite (bind_return _ _ l a).
Qed.

Lemma bind_fst_raise {A B} (m : logged A) (k : A → logged B) e :
  m.2 = Raise e → (m ≫= k).1 = m.1.
Proof. intros H. destruct m as [l r]. simpl in H. by subst r. Qed.

(** The content and the thought blocks never raise. *)

Lemma wrap_text_returns row text : (wrap_text row text).2 = Return tt.
Proof. by rewrite wrap_text_rows. Qed.

Lemma log_content_returns r : (log_content r).2 = Return tt.
Proof.
  unfold log_content. destruct (content r) as [c|]; [|done].
  destruct (content_truthy c); [|done]. unfold when.
  rewrite !bind_info. cbn [snd]. destruct c as [v|elems].
  - apply wrap_text_returns.
  - apply for_enumerate_returns. intros i x. by rewrite log_item_rows.
Qed.

Lemma log_thought_returns r : (log_thought r).2 = Return tt.
Proof.
  unfold log_thought. destruct (thought r) as [t|]; [|done].
  destruct (truthy t); [|done]. unfold when.
  rewrite !bind_info. cbn [snd]. apply wrap_text_returns.
Qed.

(** The usage and the finish-reason blocks return exactly on values of the
    documented types. *)

Lemma format_s_returns width v :
  is_str v = true → format_s width v = Return (Str.ljust width (py_str v)).
Proof. by destruct v. Qed.

Lemma format_s_raises width v :
  is_str v = false → ∃ e, format_s width v = Raise e.
Proof. destruct v; try done; simpl; eauto. Qed.

Lemma format_d_returns width v :
  is_int v = true → ∃ text, format_d width v = Return text.
Proof. destruct v; try done; simpl; eauto. Qed.

Lemma format_d_raises width v :
  is_int v = false → ∃ e, format_d width v = Raise e.
Proof. destruct v; try done; simpl; eauto. Qed.

Lemma log_usage_lines r u :
  usage r = Some (Some u) → usage_typed u = true →
  ∃ p c, format_d 82 (prompt_tokens u) = Return p ∧
         format_d 78 (completion_tokens u) = Return c ∧
         log_usage r =
           ([Sep; UsageHeader; PromptTokens p; CompletionTokens c]
              ++ match total_tokens u with
                 | Some t => match format_d 83 t with
                             | Return t' => [TotalTokens t']
                             | Raise _ => []
                             end
                 | None => []
                 end,
            Return tt).
Proof.
  intros Hu Ht. unfold usage_typed in Ht.
  apply andb_true_iff in Ht as [Ht Htot]. apply andb_true_iff in Ht as [Hp Hc].
  destruct (format_d_returns 82 _ Hp) as [p Hp'].
  destruct (format_d_returns 78 _ Hc) as [c Hc'].
  exists p, c. split; [done|]. split; [done|].
  unfold log_usage. rewrite Hu, !bind_info, Hp'.
  unfold eval. rewrite (bind_return _ _ [] p eq_refl), bind_info, Hc'.
  rewrite (bind_return _ _ [] c eq_refl), bind_info. cbn [fst snd app].
  destruct (total_tokens u) as [t|]; [|done]. simpl in Htot.
  destruct (format_d_returns 83 _ Htot) as [t' Ht']. rewrite Ht'.
  by rewrite (bind_return _ _ [] t' eq_refl).
Qed.

Lemma log_usage_absent r :
  (usage r = None ∨ usage r = Some None) → log_usage r = ([], Return tt).
Proof. unfold log_usage. by intros [-> | ->]. Qed.

Lemma log_usage_returns r :
  match usage r with Some (Some u) => usage_typed u | _ => true end = true →
  (log_usage r).2 = Return tt.
Proof.
  destruct (usage r) as [[u|]|] eqn:Hu; intros Ht.
  - destruct (log_usage_lines r u Hu Ht) as (p & c & _ & _ & ->). done.
  - rewrite log_usage_absent; auto.
  - rewrite log_usage_absent; auto.
Qed.

Lemma log_finish_reason_lines r v :
  finish_reason r = Some v → is_str v = true →
  log_finish_reason r = ([Sep; FinishReason (Str.ljust 82 (py_str v))], Return tt).
Proof.
  intros Hf Hs. unfold log_finish_reason. rewrite Hf, bind_info.
  rewrite (format_s_returns _ _ Hs). unfold eval.
  by rewrite (bind_return _ _ [] _ eq_refl).
Qed.

Lemma log_finish_reason_raises r v :
  finish_reason r = Some v → is_str v = false →
  ∃ e, log_finish_reason r = ([Sep], Raise e).
Proof.
  intros Hf Hs. unfold log_finish_reason. rewrite Hf, bind_info.
  destruct (format_s_raises 82 _ Hs) as [e He]. exists e. by rewrite He.
Qed.

Lemma log_finish_reason_returns r :
  from_option is_str true (finish_reason r) = true →
  (log_finish_reason r).2 = Return tt.
Proof.
  destruct (finish_reason r) as [v|] eqn:Hf; simpl; intros Hs.
  - by rewrite (log_finish_reason_lines r v Hf Hs).
  - unfold log_finish_reason. by rewrite Hf.
Qed.

Lemma bind_lines {B} (m : logged unit) (k : unit → logged B) l :
  l ∈ (m ≫= k).1 → l ∈ m.1 ∨ l ∈ (k tt).1.
Proof.
  destruct m as [l1 [[]|e]]; simpl; [|auto].
  destruct (k tt) as [l2 r]. simpl. rewrite elem_of_app. tauto.
Qed.

(** Whatever its values, the usage block logs usage lines and separators
    only, and the finish-reason block its line and a separator. *)

Lemma log_usage_sections r l :
  l ∈ (log_usage r).1 → section_of l = None ∨ section_of l = Some UsageSection.
Proof.
  unfold log_usage. destruct (usage r) as [[[p c t]|]|]; simpl; [|by inversion 1..].
  destruct p, c, t as [[]|]; simpl; rewrite ?elem_of_cons;
    intros H; repeat (destruct H as [->|H]; [auto|]); by inversion H.
Qed.

Lemma log_finish_reason_sections r l :
  l ∈ (log_finish_reason r).1 →
  section_of l = None ∨ section_of l = Some FinishSection.
Proof.
  unfold log_finish_reason. destruct (finish_reason r) as [[]|]; simpl;
    rewrite ?elem_of_cons;
    intros H; repeat (destruct H as [->|H]; [auto|]); by inversion H.
Qed.

Lemma log_response_lines call_id r :
  response_typed r = true →
  log_response call_id r =
    ([Top; ResponseTitle call_id; Mid]
       ++ (log_content r).1 ++ (log_thought r).1
       ++ (log_usage r).1 ++ (log_finish_reason r).1 ++ [Bottom],
     Return tt).
Proof.
  intros Ht. unfold response_typed in Ht. apply andb_true_iff in Ht as [Hu Hf].
  pose proof (log_content_returns r) as Hc.
  pose proof (log_thought_returns r) as Hth.
  apply log_usage_returns in Hu. apply log_finish_reason_returns in Hf.
  unfold log_response. rewrite !bind_info.
  destruct (log_content r) as [lc rc], (log_thought r) as [lt rt],
    (log_usage r) as [lu ru], (log_finish_reason r) as [lf rf].
  simpl in *. subst. done.
Qed.

Lemma log_response_returns call_id r :
  response_typed r = true → (log_response call_id r).2 = Return tt.
Proof. intros Ht. by rewrite log_response_lines. Qed.

End LogFacts.

(** ** One call *)

Module CreateFacts.
Import DebugVLLMClient LogFacts.

Lemma extra_params_return (kvs : list (string * scalar)) :
  forallb (λ kv, is_str kv.2) kvs = true →
  (for_each kvs (λ kv,
     value ← eval (format_s 86 kv.2) ;
     info (ExtraBodyParam kv.1 value))).2 = Return tt.
Proof.
  induction kvs as [|kv kvs IH]; [done|]. simpl. intros Hall.
  apply andb_true_iff in Hall as [Hkv Hall].
  rewrite (bind_snd_return _ _ tt); [by apply IH|].
  rewrite (format_s_returns _ _ Hkv). done.
Qed.

Lemma log_request_returns call_id messages kwargs :
  kwargs_typed kwargs = true →
  (log_request call_id messages kwargs).2 = Return tt.
Proof.
  unfold kwargs_typed, log_request. intros Ht.
  apply andb_true_iff in Ht as [Hm He]. rewrite !bind_info. cbn [snd].
  assert (∃ model, format_s_kw 91 (default (KScalar (VStr "N/A")) (kwargs !! "model"))
                   = Return model) as [model ->].
  { destruct (kwargs !! "model") as [[v|]|]; simpl; [|done|by eauto].
    rewrite (format_s_returns _ _ Hm). eauto. }
  unfold eval. rewrite (bind_return _ _ [] model eq_refl), !bind_info. cbn [snd].
  destruct (kwargs !! "extra_body") as [[v|kvs]|]; [done| |done].
  rewrite (bind_snd_return _ _ tt); [done|].
  rewrite bind_info. cbn [snd items]. rewrite (bind_return _ _ [] kvs eq_refl).
  by apply extra_params_return.
Qed.

(** The four ways through [create]. *)

Lemma create_request_raises self messages kwargs super l e :
  log_request (S (call_count self)) messages kwargs = (l, Raise e) →
  create self messages kwargs super = (bump self, l, Raise e).
Proof. unfold create. simpl. by intros ->. Qed.

Lemma create_super_raises self messages kwargs super l e :
  log_request (S (call_count self)) messages kwargs = (l, Return tt) →
  super messages kwargs = Raise e →
  create self messages kwargs super = (bump self, l, Raise e).
Proof. unfold create. simpl. by intros -> ->. Qed.

Lemma create_response_raises self messages kwargs super l1 r l2 e :
  log_request (S (call_count self)) messages kwargs = (l1, Return tt) →
  super messages kwargs = Return r →
  log_response (S (call_count self)) r = (l2, Raise e) →
  create self messages kwargs super = (bump self, l1 ++ l2, Raise e).
Proof. unfold create. simpl. by intros -> -> ->. Qed.

Lemma create_returns self messages kwargs super l1 r l2 :
  log_request (S (call_count self)) messages kwargs = (l1, Return tt) →
  super messages kwargs = Return r →
  log_response (S (call_count self)) r = (l2, Return tt) →
  create self messages kwargs super =
    (store (bump self) (record_of (S (call_count self)) r), l1 ++ l2, Return r).
Proof. unfold create. simpl. by intros -> -> ->. Qed.

(** Either the call returns the response of the delegate and stores its
    record, or it raises and only the counter has moved. *)
Lemma create_cases self messages kwargs super :
  let res := create self messages kwargs super in
  (∃ r, super messages kwargs = Return r ∧ res.2 = Return r ∧
        res.1.1 = store (bump self) (record_of (S (call_count self)) r))
  ∨ (∃ e, res.2 = Raise e ∧ res.1.1 = bump self).
Proof.
  unfold create. simpl.
  destruct (log_request _ messages kwargs) as [l1 [[]|e1]]; [|right; eauto].
  destruct (super messages kwargs) as [r|e2]; [|right; eauto].
  destruct (log_response _ r) as [l2 [[]|e3]]; [left; eauto|right; eauto].
Qed.

Lemma create_typed self messages kwargs super r :
  kwargs_typed kwargs = true → super messages kwargs = Return r →
  response_typed r = true →
  ∃ l, create self messages kwargs super =
         (store (bump self) (record_of (S (call_count self)) r), l, Return r).
Proof.
  intros Hk Hs Hr.
  pose proof (log_request_returns (S (call_count self)) messages _ Hk) as H1.
  pose proof (log_response_returns (S (call_count self)) _ Hr) as H2.
  destruct (log_request _ messages kwargs) as [l1 [[]|?]] eqn:E1; [|done].
  destruct (log_response _ r) as [l2 [[]|?]] eqn:E2; [|done].
  exists (l1 ++ l2). by apply create_returns.
Qed.

End CreateFacts.

Module RaiseFacts.
Import DebugVLLMClient LogFacts CreateFacts.

Lemma eval_raise_bind {A B} (r : result A) (k : A → logged B) e :
  r = Raise e → (eval r ≫= k).2 = Raise e.
Proof. by intros ->. Qed.

Lemma eval_return_bind {A B} (r : result A) (k : A → logged B) a :
  r = Return a → eval r ≫= k = k a.
Proof. intros ->. unfold eval. rewrite (bind_return _ _ [] a eq_refl). by destruct (k a). Qed.

Lemma log_usage_raises r u :
  usage r = Some (Some u) → usage_typed u = false →
  ∃ e, (log_usage r).2 = Raise e.
Proof.
  intros Hu Ht. unfold log_usage. rewrite Hu, !bind_info. cbn [snd].
  unfold usage_typed in Ht.
  destruct (is_int (prompt_tokens u)) eqn:Hp.
  - destruct (format_d_returns 82 _ Hp) as [p Hp'].
    rewrite (eval_return_bind _ _ p Hp'), bind_info. cbn [snd].
    destruct (is_int (completion_tokens u)) eqn:Hc.
    + destruct (format_d_returns 78 _ Hc) as [c Hc'].
      rewrite (eval_return_bind _ _ c Hc'), bind_info. cbn [snd].
      destruct (total_tokens u) as [t|]; [|done]. simpl in Ht.
      destruct (format_d_raises 83 _ Ht) as [e He]. exists e.
      by apply eval_raise_bind.
    + destruct (format_d_raises 78 _ Hc) as [e He]. exists e.
      by apply eval_raise_bind.
  - destruct (format_d_raises 82 _ Hp) as [e He]. exists e.
    by apply eval_raise_bind.
Qed.

Lemma log_response_raises call_id r :
  response_typed r = false → ∃ e, (log_response call_id r).2 = Raise e.
Proof.
  intros Ht. unfold log_response. rewrite !bind_info. cbn [snd].
  rewrite (bind_snd_return _ _ tt (log_content_returns r)).
  rewrite (bind_snd_return _ _ tt (log_thought_returns r)).
  unfold response_typed in Ht. apply andb_false_iff in Ht as [Hu|Hf].
  - destruct (usage r) as [[u|]|] eqn:Eu; try done.
    destruct (log_usage_raises r u Eu Hu) as [e He]. exists e.
    by apply bind_snd_raise.
  - destruct (usage r) as [[u|]|] eqn:Eu.
    + destruct (usage_typed u) eqn:Hu.
      * rewrite (bind_snd_return _ _ tt); [|apply log_usage_returns; by rewrite Eu].
        destruct (finish_reason r) as [v|] eqn:Ef; [|done]. simpl in Hf.
        destruct (log_finish_reason_raises r v Ef Hf) as [e He]. exists e.
        apply bind_snd_raise. by rewrite He.
      * destruct (log_usage_raises r u Eu Hu) as [e He]. exists e.
        by apply bind_snd_raise.
    + rewrite (bind_snd_return _ _ tt); [|apply log_usage_returns; by rewrite Eu].
      destruct (finish_reason r) as [v|] eqn:Ef; [|done]. simpl in Hf.
      destruct (log_finish_reason_raises r v Ef Hf) as [e He]. exists e.
      apply bind_snd_raise. by rewrite He.
    + rewrite (bind_snd_return _ _ tt); [|apply log_usage_returns; by rewrite Eu].
      destruct (finish_reason r) as [v|] eqn:Ef; [|done]. simpl in Hf.
      destruct (log_finish_reason_raises r v Ef Hf) as [e He]. exists e.
      apply bind_snd_raise. by rewrite He.
Qed.

Lemma extra_params_raise (kvs : list (string * scalar)) :
  forallb (λ kv, is_str kv.2) kvs = false →
  ∃ e, (for_each kvs (λ kv,
          value ← eval (format_s 86 kv.2) ;
          info (ExtraBodyParam kv.1 value))).2 = Raise e.
Proof.
  induction kvs as [|kv kvs IH]; [done|]. simpl. intros Hall.
  destruct (is_str kv.2) eqn:Hkv.
  - simpl in Hall. destruct (IH Hall) as [e He]. exists e.
    rewrite (bind_snd_return _ _ tt); [done|].
    by rewrite (format_s_returns _ _ Hkv).
  - destruct (format_s_raises 86 _ Hkv) as [e He]. exists e.
    apply bind_snd_raise. by rewrite He.
Qed.

Lemma log_request_raises call_id messages kwargs :
  kwargs_typed kwargs = false →
  ∃ e, (log_request call_id messages kwargs).2 = Raise e.
Proof.
  unfold kwargs_typed, log_request. intros Ht. rewrite !bind_info. cbn [snd].
  destruct (kwargs !! "model") as [[v|kvs]|] eqn:Em; simpl default.
  - destruct (is_str v) eqn:Hv.
    + simpl in Ht. rewrite (eval_return_bind _ _ _ (format_s_returns 91 v Hv)).
      rewrite !bind_info. cbn [snd].
      destruct (kwargs !! "extra_body") as [[w|kvs]|]; [|..|done].
      * exists AttributeError. apply bind_snd_raise. by rewrite bind_info.
      * destruct (extra_params_raise kvs Ht) as [e He]. exists e.
        apply bind_snd_raise. rewrite bind_info. cbn [snd items].
        by rewrite (bind_return _ _ [] kvs eq_refl).
    + destruct (format_s_raises 91 v Hv) as [e He]. exists e.
      by apply eval_raise_bind.
  - exists TypeError. by apply eval_raise_bind.
  - simpl in Ht. rewrite (eval_return_bind _ _ (Str.ljust 91 "N/A") eq_refl).
    rewrite !bind_info. cbn [snd].
    destruct (kwargs !! "extra_body") as [[w|kvs]|]; [|..|done].
    + exists AttributeError. apply bind_snd_raise. by rewrite bind_info.
    + destruct (extra_params_raise kvs Ht) as [e He]. exists e.
      apply bind_snd_raise. rewrite bind_info. cbn [snd items].
      by rewrite (bind_return _ _ [] kvs eq_refl).
Qed.

(** The options and the responses of the documented types are exactly those
    on which the two blocks are logged to their end. *)

Lemma log_request_returns_iff call_id messages kwargs :
  (log_request call_id messages kwargs).2 = Return tt ↔ kwargs_typed kwargs = true.
Proof.
  split; [|apply log_request_returns].
  destruct (kwargs_typed kwargs) eqn:Ht; [done|].
  destruct (log_request_raises call_id messages kwargs Ht) as [e ->]. done.
Qed.

Lemma log_response_returns_iff call_id r :
  (log_response call_id r).2 = Return tt ↔ response_typed r = true.
Proof.
  split; [|apply log_response_returns].
  destruct (response_typed r) eqn:Ht; [done|].
  destruct (log_response_raises call_id r Ht) as [e ->]. done.
Qed.

(** When its delegate returns, a call returns exactly on such values. *)
Lemma create_returns_iff self messages kwargs super r :
  super messages kwargs = Return r →
  (create self messages kwargs super).2 = Return r
  ↔ kwargs_typed kwargs = true ∧ response_typed r = true.
Proof.
  intros Hsuper. split.
  - rewrite <- (log_request_returns_iff (S (call_count self)) messages).
    rewrite <- (log_response_returns_iff (S (call_count self))).
    unfold create. simpl.
    destruct (log_request _ messages kwargs) as [l1 [[]|e1]]; [|done].
    rewrite Hsuper. destruct (log_response _ r) as [l2 [[]|e2]]; done.
  - intros [Hk Hr].
    by destruct (create_typed self messages kwargs super r Hk Hsuper Hr) as [l ->].
Qed.

End RaiseFacts.

(** ** Runs and the summary *)

Module RunFacts.
Import DebugVLLMClient LogFacts CreateFacts.

Lemma run_cons self c calls :
  run self (c :: calls) =
    ((run (create self (c_messages c) (c_kwargs c) (c_super c)).1.1 calls).1,
     (create self (c_messages c) (c_kwargs c) (c_super c)).2
       :: (run (create self (c_messages c) (c_kwargs c) (c_super c)).1.1 calls).2).
Proof.
  cbn [run]. destruct (create self _ _ _) as [[self' l] out]. simpl.
  by destruct (run self' calls).
Qed.

Lemma run_app self xs ys :
  run self (xs ++ ys) =
    ((run (run self xs).1 ys).1, (run self xs).2 ++ (run (run self xs).1 ys).2).
Proof.
  revert self. induction xs as [|c xs IH]; intros self.
  - simpl. by destruct (run self ys).
  - rewrite <- app_comm_cons, !run_cons, IH. done.
Qed.

Lemma create_call_count self messages kwargs super :
  call_count (create self messages kwargs super).1.1 = S (call_count self).
Proof.
  destruct (create_cases self messages kwargs super)
    as [(r & _ & _ & ->)|(e & _ & ->)]; done.
Qed.

Lemma run_call_count self calls :
  call_count (run self calls).1 = call_count self + length calls.
Proof.
  revert self. induction calls as [|c calls IH]; intros self; simpl length.
  - simpl. lia.
  - rewrite run_cons. cbn [fst]. rewrite IH, create_call_count. lia.
Qed.

(** A call adds at most one record, and a record carries the identifier
    the call took. *)
Lemma create_history self messages kwargs super :
  ∃ new,
    raw_responses (create self messages kwargs super).1.1 = raw_responses self ++ new ∧
    Forall (λ rec, call_id rec = S (call_count self)) new ∧
    length new ≤ 1.
Proof.
  destruct (create_cases self messages kwargs super)
    as [(r & _ & _ & ->)|(e & _ & ->)].
  - exists [record_of (S (call_count self)) r]. simpl.
    split; [done|]. split; [by repeat constructor|lia].
  - exists []. simpl. rewrite app_nil_r. split; [done|]. split; [constructor|lia].
Qed.

Lemma run_history self calls :
  ∃ new,
    raw_responses (run self calls).1 = raw_responses self ++ new ∧
    Forall (λ rec, call_count self < call_id rec ≤ call_count self + length calls) new ∧
    StronglySorted lt (call_id <$> new) ∧
    length new ≤ length calls.
Proof.
  revert self. induction calls as [|c calls IH]; intros self.
  - exists []. simpl. rewrite app_nil_r. repeat split; constructor.
  - rewrite run_cons. cbn [fst].
    destruct (create_history self (c_messages c) (c_kwargs c) (c_super c))
      as (new1 & E1 & Hid1 & Hlen1).
    destruct (IH (create self (c_messages c) (c_kwargs c) (c_super c)).1.1)
      as (new2 & E2 & Hid2 & Hsorted2 & Hlen2).
    rewrite create_call_count in Hid2.
    exists (new1 ++ new2). rewrite E2, E1, <- app_assoc. split; [done|].
    split; [|split].
    + apply Forall_app. split.
      * eapply Forall_impl; [exact Hid1|]. simpl. intros rec ->. lia.
      * eapply Forall_impl; [exact Hid2|]. simpl. intros rec ?. lia.
    + destruct new1 as [|rec1 [|? ?]]; simpl in Hlen1; [done| |lia].
      simpl. constructor; [done|]. rewrite Forall_fmap.
      apply Forall_inv in Hid1. eapply Forall_impl; [exact Hid2|].
      simpl. intros rec ?. lia.
    + rewrite length_app. simpl. lia.
Qed.

(** A call whose delegate raises stores nothing. *)
Lemma create_failed self c e :
  outcome c = Raise e →
  (create self (c_messages c) (c_kwargs c) (c_super c)).1.1 = bump self.
Proof.
  intros Hout.
  destruct (create_cases self (c_messages c) (c_kwargs c) (c_super c))
    as [(r & Hr & _ & _)|(e' & _ & ->)]; [|done].
  unfold outcome in Hout. congruence.
Qed.

Lemma run_all_ok self calls :
  Forall (λ c, call_ok c = true) calls →
  (call_id <$> raw_responses (run self calls).1
     = (call_id <$> raw_responses self) ++ seq (S (call_count self)) (length calls)) ∧
  (run self calls).2 = outcome <$> calls.
Proof.
  intros Hok. revert self. induction Hok as [|c calls Hc _ IH]; intros self.
  - simpl. by rewrite app_nil_r.
  - unfold call_ok in Hc. apply andb_true_iff in Hc as [Hk Hr].
    destruct (outcome c) as [r|] eqn:Hsuper; [|done].
    destruct (create_typed self _ _ _ r Hk Hsuper Hr) as [l E].
    rewrite run_cons, E. cbn [fst snd].
    destruct (IH (store (bump self) (record_of (S (call_count self)) r))) as [IH1 IH2].
    rewrite IH1, IH2. simpl. rewrite fmap_app, <- app_assoc. simpl.
    by rewrite Hsuper.
Qed.

(** The summary *)

Lemma summary_entries_join n idx records :
  n = idx + length records - 1 → 1 ≤ idx →
  summary_entries n idx records = join_with [Sep] (entry <$> records).
Proof.
  revert idx. induction records as [|rec records IH]; intros idx Hn Hidx; [done|].
  cbn [summary_entries fmap list_fmap]. rewrite length_cons in Hn.
  rewrite (IH (S idx)) by lia. fold (entry rec).
  destruct records as [|rec' records].
  - simpl in Hn. replace (idx <? n) with false by (symmetry; apply Nat.ltb_ge; lia).
    done.
  - rewrite length_cons in Hn.
    replace (idx <? n) with true by (symmetry; apply Nat.ltb_lt; lia).
    done.
Qed.

Lemma call_headers_entries n idx records :
  call_headers (summary_entries n idx records) = call_id <$> records.
Proof.
  revert idx. induction records as [|rec records IH]; intros idx; [done|].
  cbn [summary_entries]. unfold call_headers in *.
  rewrite !omap_app, IH. simpl. by destruct (idx <? n).
Qed.

End RunFacts.

(** * The claims *)

Import DebugVLLMClient StrFacts WrapFacts LogFacts CreateFacts RaiseFacts RunFacts.

(** The example scenario: one call answered by [hello] stores the record
    with the identifier 1, content and no thought, and returns [hello]. *)
Example hello_scenario :
  create init [VStr "hi"] ∅ (answers hello) =
    ({| raw_responses := [ {| call_id := 1; response := hello;
                              has_content := true; has_thought := false |} ];
        call_count := 1 |},
     [ Top; RequestTitle 1; Mid; ModelLine (Str.ljust 91 "N/A"); MessagesLine 1;
       Bottom;
       Top; ResponseTitle 1; Mid;
       ContentHeader; Sep; ContentRow (Str.ljust 96 "Hello");
       Sep; UsageHeader; PromptTokens (Str.ljust 82 "10");
       CompletionTokens (Str.ljust 78 "5"); TotalTokens (Str.ljust 83 "15");
       Sep; FinishReason (Str.ljust 82 "stop");
       Bottom ],
     Return hello).
Proof. reflexivity. Qed.

(** ** Counting the calls *)

(** C1: three calls whose delegates all return, the second one a response
    with the finish reason [None].  The counter is 3, but the second call
    raises [TypeError] at line 110 before its record is stored at line 115:
    the history holds two records, with the identifiers 1 and 3, where three
    records with the identifiers 1, 2, 3 are expected. *)
Theorem returned_call_not_recorded :
  outcome <$> [ask (answers hello); ask (answers none_reason); ask (answers silent)]
    = [Return hello; Return none_reason; Return silent] ∧
  (run init [ask (answers hello); ask (answers none_reason); ask (answers silent)]).2
    = [Return hello; Raise TypeError; Return silent] ∧
  call_count
    (run init [ask (answers hello); ask (answers none_reason); ask (answers silent)]).1
    = 3 ∧
  call_id <$> raw_responses
    (run init [ask (answers hello); ask (answers none_reason); ask (answers silent)]).1
    = [1; 3].
Proof. repeat split; reflexivity. Qed.

(** X16: after N calls on a new client the counter is N, whatever the calls
    did, and the identifiers in the history are strictly increasing and lie
    between 1 and N: the k-th call takes the identifier k and no identifier is
    given twice.  When every call has options of the documented types and a
    delegate that returns a response of the documented types, every call
    returns the response of its delegate and the history holds N records
    whose identifiers are 1, 2, ..., N in this order. *)
Theorem successful_calls_counted calls :
  call_count (run init calls).1 = length calls ∧
  StronglySorted lt (call_id <$> raw_responses (run init calls).1) ∧
  Forall (λ rec, 1 ≤ call_id rec ≤ length calls) (raw_responses (run init calls).1) ∧
  (Forall (λ c, call_ok c = true) calls →
   (run init calls).2 = outcome <$> calls ∧
   length (raw_responses (run init calls).1) = length calls ∧
   call_id <$> raw_responses (run init calls).1 = seq 1 (length calls)).
Proof.
  split; [by rewrite run_call_count|].
  destruct (run_history init calls) as (new & E & Hids & Hsorted & _).
  simpl in E, Hids. rewrite E.
  split; [done|]. split.
  - eapply Forall_impl; [exact Hids|]. simpl. intros rec. lia.
  - intros Hok. destruct (run_all_ok init calls Hok) as [Hseq Houts].
    rewrite E in Hseq. simpl in Hseq. split; [done|]. split; [|done].
    by rewrite <- (length_fmap call_id), Hseq, length_seq.
Qed.

Lemma successful_calls_counted_witness :
  Forall (λ c, call_ok c = true) [ask (answers hello); ask (answers silent)] ∧
  call_count (run init [ask (answers hello); ask (answers silent)]).1 = 2 ∧
  (run init [ask (answers hello); ask (answers silent)]).2
    = [Return hello; Return silent] ∧
  length (raw_responses (run init [ask (answers hello); ask (answers silent)]).1) = 2 ∧
  call_id <$> raw_responses (run init [ask (answers hello); ask (answers silent)]).1
    = [1; 2].
Proof.
  assert (Forall (λ c, call_ok c = true) [ask (answers hello); ask (answers silent)])
    as Hok by (repeat constructor).
  split; [exact Hok|].
  destruct (successful_calls_counted [ask (answers hello); ask (answers silent)])
    as (Hcount & _ & _ & Htyped).
  split; [exact Hcount|]. exact (Htyped Hok).
Defined.

(** C10: a call whose delegate raises still takes an identifier.  With such
    a call after the calls [before] and followed by the calls [after], the
    counter is the number of all the calls and exceeds the length of the
    history; the records kept from [before] have identifiers up to
    [length before], those added by [after] have identifiers above
    [length before + 1], so the identifier of the failed call is in no
    record; and the summary reports the counter as the total while its
    per-call entries are those of the history. *)
Theorem failed_call_leaves_gap before c after e :
  outcome c = Raise e →
  call_count (run init (before ++ c :: after)).1 = length (before ++ c :: after) ∧
  length (raw_responses (run init (before ++ c :: after)).1)
    < call_count (run init (before ++ c :: after)).1 ∧
  (∃ new,
     raw_responses (run init (before ++ c :: after)).1
       = raw_responses (run init before).1 ++ new ∧
     Forall (λ rec, call_id rec ≤ length before) (raw_responses (run init before).1) ∧
     Forall (λ rec, S (length before) < call_id rec) new) ∧
  (S (length before) ∉ call_id <$> raw_responses (run init (before ++ c :: after)).1) ∧
  (get_response_summary (run init (before ++ c :: after)).1).2 !! 3
    = Some (TotalCalls (Str.ljust 82 (Str.of_nat (length (before ++ c :: after))))) ∧
  call_headers (get_response_summary (run init (before ++ c :: after)).1).2
    = call_id <$> raw_responses (run init (before ++ c :: after)).1.
Proof.
  intros Hfail.
  pose proof (run_call_count init (before ++ c :: after)) as Hcount. simpl in Hcount.
  destruct (run_history init before) as (old & Eold & Hold & _ & Hlen_old).
  simpl in Eold, Hold.
  assert (∃ new,
     raw_responses (run init (before ++ c :: after)).1
       = raw_responses (run init before).1 ++ new ∧
     Forall (λ rec, S (length before) < call_id rec) new ∧
     length new ≤ length after) as (new & Enew & Hnew & Hlen_new).
  { rewrite run_app, run_cons. cbn [fst]. rewrite (create_failed _ c e Hfail).
    destruct (run_history (bump (run init before).1) after)
      as (new & E & Hid & _ & Hlen).
    exists new. split; [done|]. split; [|done].
    eapply Forall_impl; [exact Hid|]. simpl. intros rec.
    rewrite run_call_count. simpl. lia. }
  assert (Forall (λ rec, call_id rec ≤ length before) (raw_responses (run init before).1))
    as Hold'.
  { rewrite Eold. eapply Forall_impl; [exact Hold|]. simpl. intros rec. lia. }
  split; [done|]. split; [|split; [|split; [|split]]].
  - rewrite Hcount, Enew, Eold, !length_app. simpl. lia.
  - exists new. done.
  - rewrite Enew, fmap_app, elem_of_app, !list_elem_of_fmap.
    intros [(rec & Hid & Hin)|(rec & Hid & Hin)].
    + rewrite Forall_forall in Hold'. specialize (Hold' rec Hin). lia.
    + rewrite Forall_forall in Hnew. specialize (Hnew rec Hin). lia.
  - simpl. by rewrite Hcount.
  - unfold get_response_summary. cbn [snd]. unfold call_headers.
    rewrite !omap_app. simpl. rewrite app_nil_r.
    apply call_headers_entries.
Qed.

Lemma failed_call_leaves_gap_witness :
  outcome (ask (fails (OtherError "APITimeoutError")))
    = Raise (OtherError "APITimeoutError") ∧
  call_count (run init ([ask (answers hello)]
      ++ ask (fails (OtherError "APITimeoutError")) :: [ask (answers silent)])).1 = 3 ∧
  call_id <$> raw_responses (run init ([ask (answers hello)]
      ++ ask (fails (OtherError "APITimeoutError")) :: [ask (answers silent)])).1
    = [1; 3] ∧
  2 ∉ (call_id <$> raw_responses (run init ([ask (answers hello)]
      ++ ask (fails (OtherError "APITimeoutError")) :: [ask (answers silent)])).1).
Proof.
  split; [reflexivity|]. split; [reflexivity|]. split; [reflexivity|].
  apply (failed_call_leaves_gap [ask (answers hello)]
           (ask (fails (OtherError "APITimeoutError"))) [ask (answers silent)]
           (OtherError "APITimeoutError") eq_refl).
Defined.

(** C6: the summary leaves the client as it is, so a second summary right
    after the first is the same report, total and flags included; and the
    report is the frame, the total, and the entries of the records with one
    separator between two consecutive entries and none after the last. *)
Theorem summary_repeatable self :
  (get_response_summary self).1 = self ∧
  get_response_summary (get_response_summary self).1 = get_response_summary self ∧
  (get_response_summary self).2 =
    [ Top; SummaryTitle; Mid;
      TotalCalls (Str.ljust 82 (Str.of_nat (call_count self))); Sep ]
    ++ join_with [Sep] (entry <$> raw_responses self) ++ [ Bottom ].
Proof.
  split; [done|]. split; [done|].
  unfold get_response_summary. cbn [snd].
  rewrite summary_entries_join; [done|lia|lia].
Qed.

(** ** One intercepted call *)

(** C3: when the inherited [create] raises on the call, the history is as
    it was, no record being appended; and once the request block is logged,
    which is when the delegate is called, [create] raises that very
    exception: nothing is caught on the way. *)
Theorem delegate_error_propagates self messages kwargs super e :
  super messages kwargs = Raise e →
  raw_responses (create self messages kwargs super).1.1 = raw_responses self ∧
  ((log_request (S (call_count self)) messages kwargs).2 = Return tt →
   (create self messages kwargs super).2 = Raise e).
Proof.
  intros Hsuper. split.
  - destruct (create_cases self messages kwargs super)
      as [(r & Hr & _ & _)|(e' & _ & ->)]; [congruence|done].
  - intros Hreq.
    destruct (log_request _ messages kwargs) as [l [[]|?]] eqn:E; [|done].
    by rewrite (create_super_raises _ _ _ _ l e E Hsuper).
Qed.

Lemma delegate_error_propagates_witness :
  fails (OtherError "APIConnectionError") [VStr "hi"] ∅
    = Raise (OtherError "APIConnectionError") ∧
  (log_request 1 [VStr "hi"] ∅).2 = Return tt ∧
  raw_responses (create init [VStr "hi"] ∅
                   (fails (OtherError "APIConnectionError"))).1.1 = [] ∧
  (create init [VStr "hi"] ∅ (fails (OtherError "APIConnectionError"))).2
    = Raise (OtherError "APIConnectionError").
Proof.
  split; [reflexivity|]. split; [reflexivity|].
  destruct (delegate_error_propagates init [VStr "hi"] ∅
              (fails (OtherError "APIConnectionError"))
              (OtherError "APIConnectionError") eq_refl) as [Hhist Hexn].
  split; [exact Hhist|]. exact (Hexn eq_refl).
Defined.

(** C4: the delegate returns a response and [create] does not return it.
    On a response with the finish reason [None] line 110 raises [TypeError],
    on one with a string as prompt count line 102 raises [ValueError]; in
    both cases line 122 is not reached, the caller gets the exception in
    place of the response and the history is as it was. *)
Theorem returned_response_not_passed_on self messages kwargs :
  kwargs_typed kwargs = true →
  answers none_reason messages kwargs = Return none_reason ∧
  (create self messages kwargs (answers none_reason)).2 = Raise TypeError ∧
  raw_responses (create self messages kwargs (answers none_reason)).1.1
    = raw_responses self ∧
  answers string_count messages kwargs = Return string_count ∧
  (create self messages kwargs (answers string_count)).2 = Raise ValueError ∧
  raw_responses (create self messages kwargs (answers string_count)).1.1
    = raw_responses self.
Proof.
  intros Hk.
  pose proof (log_request_returns (S (call_count self)) messages kwargs Hk) as Hreq.
  destruct (log_request (S (call_count self)) messages kwargs) as [l1 [[]|?]] eqn:E;
    [|done].
  split; [done|].
  rewrite (create_response_raises self messages kwargs (answers none_reason)
             l1 none_reason _ TypeError E eq_refl eq_refl).
  split; [done|]. split; [done|]. split; [done|].
  rewrite (create_response_raises self messages kwargs (answers string_count)
             l1 string_count _ ValueError E eq_refl eq_refl).
  done.
Qed.

Lemma returned_response_not_passed_on_witness :
  kwargs_typed typed_options = true ∧
  (create init [VStr "hi"] typed_options (answers none_reason)).2 = Raise TypeError ∧
  (create init [VStr "hi"] typed_options (answers string_count)).2 = Raise ValueError.
Proof.
  split; [reflexivity|].
  destruct (returned_response_not_passed_on init [VStr "hi"] typed_options eq_refl)
    as (_ & H1 & _ & _ & H2 & _).
  split; [exact H1|exact H2].
Defined.

(** X17: when the inherited [create] returns a response, whatever [create]
    returns is that very response, [obj_id] and attributes; and with options
    and a response of the documented types [create] does return it, the
    stored record holding the same object. *)
Theorem delegate_response_returned self messages kwargs super r :
  super messages kwargs = Return r →
  (∀ r', (create self messages kwargs super).2 = Return r' → r' = r) ∧
  (kwargs_typed kwargs = true → response_typed r = true →
   (create self messages kwargs super).2 = Return r ∧
   response <$> raw_responses (create self messages kwargs super).1.1
     = (response <$> raw_responses self) ++ [r]).
Proof.
  intros Hsuper. split.
  - intros r' Hret.
    destruct (create_cases self messages kwargs super) as [(r0 & H0 & H1 & _)|(e & H1 & _)];
      simpl in *; congruence.
  - intros Hk Hr.
    destruct (create_typed self messages kwargs super r Hk Hsuper Hr) as [l ->].
    simpl. by rewrite fmap_app.
Qed.

Lemma delegate_response_returned_witness :
  answers hello [VStr "hi"] ∅ = Return hello ∧
  kwargs_typed ∅ = true ∧ response_typed hello = true ∧
  (create init [VStr "hi"] ∅ (answers hello)).2 = Return hello ∧
  response <$> raw_responses (create init [VStr "hi"] ∅ (answers hello)).1.1
    = [hello].
Proof.
  split; [reflexivity|]. split; [reflexivity|]. split; [reflexivity|].
  apply (delegate_response_returned init [VStr "hi"] ∅ (answers hello) hello);
    reflexivity.
Defined.

(** C9: the record of a call that returned carries the identifier of the
    call and the response, [has_content] is true exactly when the response
    has a content attribute with a true value, and likewise [has_thought];
    an empty string or an empty list as content gives the flag of a missing
    attribute. *)
Theorem stored_flags self messages kwargs super r :
  (create self messages kwargs super).2 = Return r →
  ∃ rec,
    raw_responses (create self messages kwargs super).1.1
      = raw_responses self ++ [rec] ∧
    call_id rec = S (call_count self) ∧ response rec = r ∧
    (has_content rec = true ↔ ∃ c, content r = Some c ∧ content_truthy c = true) ∧
    (has_thought rec = true ↔ ∃ t, thought r = Some t ∧ truthy t = true) ∧
    (content r = None ∨ content r = Some (CScalar (VStr EmptyString))
       ∨ content r = Some (CList []) → has_content rec = false).
Proof.
  intros Hret.
  destruct (create_cases self messages kwargs super) as [(r0 & _ & H1 & H2)|(e & H1 & _)];
    simpl in *; [|congruence].
  assert (r0 = r) as -> by congruence.
  exists (record_of (S (call_count self)) r). rewrite H2. simpl.
  split; [done|]. split; [done|]. split; [done|]. split; [|split].
  - destruct (content r) as [c|]; simpl; split;
      [eauto | by intros (? & [= <-] & ?) | done | by intros (? & ? & ?)].
  - destruct (thought r) as [t|]; simpl; split;
      [eauto | by intros (? & [= <-] & ?) | done | by intros (? & ? & ?)].
  - intros [-> | [-> | ->]]; done.
Qed.

Lemma stored_flags_witness :
  (create init [VStr "hi"] ∅ (answers hello)).2 = Return hello ∧
  ∃ rec,
    raw_responses (create init [VStr "hi"] ∅ (answers hello)).1.1 = [] ++ [rec] ∧
    call_id rec = 1 ∧ response rec = hello ∧
    (has_content rec = true ↔ ∃ c, content hello = Some c ∧ content_truthy c = true) ∧
    (has_thought rec = true ↔ ∃ t, thought hello = Some t ∧ truthy t = true) ∧
    (content hello = None ∨ content hello = Some (CScalar (VStr EmptyString))
       ∨ content hello = Some (CList []) → has_content rec = false).
Proof.
  split; [reflexivity|].
  apply (stored_flags init [VStr "hi"] ∅ (answers hello) hello). reflexivity.
Defined.

(** C5: a response whose content and thought are [None], with its token
    counts and with the finish reason [None].  The block has no content and no
    thought section and has the usage section, but of the finish-reason
    section only the separator is logged: line 110 raises [TypeError], so
    that no finish-reason line and no closing frame follow, although the
    attribute exists. *)
Theorem none_finish_reason_not_logged call_id :
  content silent_none_reason = Some (CScalar VNone) ∧
  thought silent_none_reason = Some VNone ∧
  finish_reason silent_none_reason = Some VNone ∧
  log_response call_id silent_none_reason =
    ([ Top; ResponseTitle call_id; Mid;
       Sep; UsageHeader; PromptTokens (Str.ljust 82 "10");
       CompletionTokens (Str.ljust 78 "0");
       Sep ],
     Raise TypeError) ∧
  (∀ l, l ∈ (log_response call_id silent_none_reason).1 →
     section_of l ≠ Some FinishSection).
Proof.
  assert (log_response call_id silent_none_reason =
    ([ Top; ResponseTitle call_id; Mid;
       Sep; UsageHeader; PromptTokens (Str.ljust 82 "10");
       CompletionTokens (Str.ljust 78 "0");
       Sep ],
     Raise TypeError)) as E by reflexivity.
  split; [done|]. split; [done|]. split; [done|]. split; [exact E|].
  intros l. rewrite E. cbn [fst]. rewrite !elem_of_cons.
  intros H. repeat (destruct H as [->|H]; [done|]). by inversion H.
Qed.

(** X18: for a response whose content and thought are [None], no line of
    the response block belongs to the content or to the thought section,
    whatever else the response holds.  With usage counts and a finish reason
    of the documented types the block is logged to its end, the usage section
    is there whenever the response has a usage object, with the total when the
    object has one, and the finish-reason line is there whenever the attribute
    exists, whatever the string. *)
Theorem no_content_no_thought_sections call_id r :
  content r = Some (CScalar VNone) → thought r = Some VNone →
  (∀ l, l ∈ (log_response call_id r).1 →
     section_of l ≠ Some ContentSection ∧ section_of l ≠ Some ThoughtSection) ∧
  (response_typed r = true →
   (log_response call_id r).2 = Return tt ∧
   (∀ u, usage r = Some (Some u) →
      UsageHeader ∈ (log_response call_id r).1 ∧
      (∃ p, format_d 82 (prompt_tokens u) = Return p ∧
            PromptTokens p ∈ (log_response call_id r).1) ∧
      (∃ c, format_d 78 (completion_tokens u) = Return c ∧
            CompletionTokens c ∈ (log_response call_id r).1) ∧
      (∀ t, total_tokens u = Some t →
         ∃ t', format_d 83 t = Return t' ∧
               TotalTokens t' ∈ (log_response call_id r).1)) ∧
   (∀ v, finish_reason r = Some v →
      ∃ s, v = VStr s ∧ FinishReason (Str.ljust 82 s) ∈ (log_response call_id r).1)).
Proof.
  intros Hc Hth.
  assert (log_content r = ([], Return tt)) as Econtent
    by (unfold log_content; by rewrite Hc).
  assert (log_thought r = ([], Return tt)) as Ethought
    by (unfold log_thought; by rewrite Hth).
  split.
  - intros l Hl.
    assert (section_of l = None ∨ section_of l = Some UsageSection
            ∨ section_of l = Some FinishSection) as Hsec;
      [|by destruct Hsec as [Hs|[Hs|Hs]]; rewrite Hs].
    unfold log_response in Hl. rewrite Econtent, Ethought in Hl.
    repeat (apply bind_lines in Hl as [Hl|Hl];
            [simpl in Hl; apply list_elem_of_singleton in Hl as ->; auto|]).
    apply bind_lines in Hl as [Hl|Hl]; [by inversion Hl|].
    apply bind_lines in Hl as [Hl|Hl]; [by inversion Hl|].
    apply bind_lines in Hl as [Hl|Hl];
      [destruct (log_usage_sections r l Hl); auto|].
    apply bind_lines in Hl as [Hl|Hl];
      [destruct (log_finish_reason_sections r l Hl); auto|].
    simpl in Hl. apply list_elem_of_singleton in Hl as ->. auto.
  - intros Ht. rewrite (log_response_lines call_id r Ht), Econtent, Ethought.
    unfold response_typed in Ht. apply andb_true_iff in Ht as [Hu Hf].
    cbn [fst snd app]. split; [done|]. split.
    + intros u Eu. rewrite Eu in Hu.
      destruct (log_usage_lines r u Eu Hu) as (p & c & Hp & Hc' & ->). cbn [fst].
      split; [set_solver|]. split; [exists p; split; [done|set_solver]|].
      split; [exists c; split; [done|set_solver]|].
      intros t Et. rewrite Et. unfold usage_typed in Hu. rewrite Et in Hu.
      apply andb_true_iff in Hu as [_ Hu]. simpl in Hu.
      destruct (format_d_returns 83 t Hu) as [t' Ht']. rewrite Ht'.
      exists t'. split; [done|set_solver].
    + intros v Ef. rewrite Ef in Hf. simpl in Hf.
      destruct v as [| | |s|]; try done. exists s. split; [done|].
      rewrite (log_finish_reason_lines r (VStr s) Ef eq_refl). set_solver.
Qed.

Lemma no_content_no_thought_sections_witness :
  content silent = Some (CScalar VNone) ∧ thought silent = Some VNone ∧
  response_typed silent = true ∧
  (∀ l, l ∈ (log_response 7 silent).1 →
     section_of l ≠ Some ContentSection ∧ section_of l ≠ Some ThoughtSection) ∧
  (log_response 7 silent).2 = Return tt ∧
  UsageHeader ∈ (log_response 7 silent).1 ∧
  FinishReason (Str.ljust 82 "length") ∈ (log_response 7 silent).1.
Proof.
  split; [reflexivity|]. split; [reflexivity|]. split; [reflexivity|].
  destruct (no_content_no_thought_sections 7 silent eq_refl eq_refl)
    as (Hnone & Htyped).
  destruct (Htyped eq_refl) as (Hret & Husage & Hfinish).
  split; [exact Hnone|]. split; [exact Hret|]. split.
  - exact (proj1 (Husage _ eq_refl)).
  - destruct (Hfinish _ eq_refl) as (s & [= <-] & Hin). exact Hin.
Defined.

(** C8: what [create] does on values that are not strings.  An integer
    among the values of [extra_body] makes line 45 raise [ValueError] before
    the inherited [create] is called at all; a finish reason [None] on the
    response the delegate returned makes line 110 raise [TypeError], after
    the separator of the section is logged, and the record of the call is not
    stored. *)
Theorem formatting_raises :
  (∀ self messages super,
     (create self messages {[ "extra_body" := KDict [("top_k", VInt 20)] ]} super).2
       = Raise ValueError) ∧
  (∀ self messages,
     (create self messages ∅ (answers none_reason)).2 = Raise TypeError ∧
     raw_responses (create self messages ∅ (answers none_reason)).1.1
       = raw_responses self ∧
     last (create self messages ∅ (answers none_reason)).1.2 = Some Sep).
Proof.
  split.
  - intros self messages super. reflexivity.
  - intros self messages. repeat split; reflexivity.
Qed.

(** ** Wrapped rows *)

(** C2, as the claim has it, fails on a block with an empty line: the
    thought made of the lines [a], the empty line and [b] is logged on two
    rows, [while line:] being false at once for the empty line, where the
    claim asks for at least one row for each line. *)
Lemma empty_line_emits_no_row :
  Str.split_nl (String "a" (String Str.nl (String Str.nl "b")))
    = ["a"; EmptyString; "b"] ∧
  (wrap_text ThoughtRow (String "a" (String Str.nl (String Str.nl "b")))).1
    = [ThoughtRow (Str.ljust 96 "a"); ThoughtRow (Str.ljust 96 "b")] ∧
  wrap_rows 96 width_96 EmptyString = [] ∧
  ¬ (length (wrap_rows 96 width_96 EmptyString)
       = 1 `max` ceil_div (Str.len EmptyString) 96).
Proof.
  split; [reflexivity|]. split; [reflexivity|]. split; [reflexivity|].
  vm_compute. discriminate.
Qed.

(** C2, amended.  A scalar content or a thought is split on newlines and
    each line of length L is logged on exactly ceil(L / 96) rows, none for
    an empty line; an item of a list content is not split, and its string of
    length L is logged on max(1, ceil(L / 91)) rows, the first one with the
    index.  Row [i] is the slice [i*W:(i+1)*W] of the line followed by
    spaces up to the width W; no slice of a line is empty, every row is W
    characters long, and the slices put together are the line. *)
Theorem wrapped_rows :
  (∀ row text,
     wrap_text row text =
       (flat_map (λ ln, row ∘ Str.ljust 96 <$> slices 96 ln) (Str.split_nl text),
        Return tt)) ∧
  (∀ ln,
     length (slices 96 ln) = ceil_div (Str.len ln) 96 ∧
     Forall (λ p, 0 < Str.len p ≤ 96 ∧ Str.len (Str.ljust 96 p) = 96) (slices 96 ln) ∧
     Str.concat (slices 96 ln) = ln) ∧
  (∀ idx item,
     log_item idx item =
       (ItemRow idx (Str.ljust 91 (Str.take 91 (py_str item)))
          :: (ItemContinuationRow ∘ Str.ljust 91
                <$> slices 91 (Str.drop 91 (py_str item))),
        Return tt) ∧
     S (length (slices 91 (Str.drop 91 (py_str item))))
       = 1 `max` ceil_div (Str.len (py_str item)) 91 ∧
     Forall (λ p, Str.len (Str.ljust 91 p) = 91)
       (Str.take 91 (py_str item) :: slices 91 (Str.drop 91 (py_str item))) ∧
     Str.concat (Str.take 91 (py_str item) :: slices 91 (Str.drop 91 (py_str item)))
       = py_str item).
Proof.
  split; [|split].
  - intros row text. rewrite wrap_text_rows. f_equal.
    apply flat_map_ext. intros ln.
    by rewrite wrap_rows_slices, list_fmap_compose.
  - intros ln. split; [apply slices_length|]. split; [|apply concat_slices; lia].
    eapply Forall_impl; [apply (slices_nonempty 96 ln); lia|].
    simpl. intros p Hp. split; [done|]. rewrite len_ljust. lia.
  - intros idx item. split; [|split; [|split]].
    + rewrite log_item_rows. by rewrite wrap_rows_slices, list_fmap_compose.
    + rewrite slices_length, len_drop.
      destruct (decide (Str.len (py_str item) = 0)) as [->|Hpos].
      * by vm_compute.
      * rewrite (ceil_div_step 91 (Str.len (py_str item))) by lia. lia.
    + constructor.
      * rewrite len_ljust, len_take. lia.
      * eapply Forall_impl; [apply (slices_nonempty 91); lia|].
        simpl. intros p Hp. rewrite len_ljust. lia.
    + rewrite concat_cons, concat_slices by lia. apply take_append_drop.
Qed.



(** ** The driver *)

Import Driver.

(** C7: without the two prompt options the task has the chemistry persona
    as its system prompt and the SMILES task with the price of 20 dollars
    as its user prompt, character for character; a prompt given on the
    command line, the empty string included, is the prompt of the task. *)
Theorem default_prompts urls :
  system_prompt (mytask {| args_system_prompt := None; args_user_prompt := None;
                           args_server_urls := urls |})
    = "You are a world-class chemist. Your task is to generate unique molecules based on the lead molecule provided by the user. The generated molecules should be chemically valid and diverse, exploring different chemical spaces while maintaining some structural similarity to the lead molecule. Provide the final answer in a clear and concise manner." ∧
  user_prompt (mytask {| args_system_prompt := None; args_user_prompt := None;
                         args_server_urls := urls |})
    = "Generate a unique molecule based on the lead molecule provided. The lead molecule is CCO. Use SMILES format for the molecules. Ensure the generated molecule is chemically valid and unique, using the tools provided. Check the price of the generated molecule using the molecule pricing tool, and get a cheap molecule. Once you find a molecule that is unique (not known) and reasonably cheap (price <= $20), provide your final answer with the SMILES string and price. Do not continue searching indefinitely." ∧
  (∀ given user,
     system_prompt (mytask {| args_system_prompt := Some given;
                              args_user_prompt := user;
                              args_server_urls := urls |}) = given) ∧
  (∀ system given,
     user_prompt (mytask {| args_system_prompt := system;
                            args_user_prompt := Some given;
                            args_server_urls := urls |}) = given).
Proof. repeat split. Qed.

(** * Further properties *)

(** ** Exceptions and blocks of [DebugVLLMClient] *)

Module ErrorFacts.
Import DebugVLLMClient LogFacts CreateFacts RaiseFacts.

Lemma bind_error {A B} (m : logged A) (k : A → logged B) e :
  (m ≫= k).2 = Raise e →
  m.2 = Raise e ∨ ∃ a, m.2 = Return a ∧ (k a).2 = Raise e.
Proof.
  destruct m as [l [a|e']]; simpl.
  - destruct (k a) as [l' r] eqn:E. simpl. intros ->. right. exists a.
    by rewrite E.
  - intros [= ->]. by left.
Qed.

Lemma format_s_error width v e :
  format_s width v = Raise e → e = TypeError ∨ e = ValueError.
Proof. destruct v; simpl; intros [= <-]; auto. Qed.

Lemma format_d_error width v e :
  format_d width v = Raise e → e = TypeError ∨ e = ValueError.
Proof. destruct v; simpl; intros [= <-]; auto. Qed.

Lemma extra_params_error (kvs : list (string * scalar)) e :
  (for_each kvs (λ kv,
     value ← eval (format_s 86 kv.2) ;
     info (ExtraBodyParam kv.1 value))).2 = Raise e →
  e = TypeError ∨ e = ValueError.
Proof.
  induction kvs as [|kv kvs IH]; [done|]. cbn [for_each]. intros H.
  apply bind_error in H as [H|([] & _ & H)]; [|by apply IH].
  apply bind_error in H as [H|(value & _ & H)]; [|done].
  by apply format_s_error in H.
Qed.

Lemma log_request_error call_id messages kwargs e :
  (log_request call_id messages kwargs).2 = Raise e → own_error e.
Proof.
  unfold log_request, own_error. rewrite !bind_info. cbn [snd]. intros H.
  apply bind_error in H as [H|(model & _ & H)].
  { simpl in H. destruct (kwargs !! "model") as [[v|kvs]|]; simpl in H.
    - apply format_s_error in H. tauto.
    - injection H as <-. auto.
    - done. }
  rewrite !bind_info in H. cbn [snd] in H.
  apply bind_error in H as [H|([] & _ & H)]; [|done].
  destruct (kwargs !! "extra_body") as [[v|kvs]|]; [| |done].
  - rewrite bind_info in H. simpl in H. injection H as <-. auto.
  - rewrite bind_info in H. cbn [snd items] in H.
    rewrite (bind_return _ _ [] kvs eq_refl) in H. cbn [snd] in H.
    apply extra_params_error in H. tauto.
Qed.

Lemma log_usage_error r e :
  (log_usage r).2 = Raise e → e = TypeError ∨ e = ValueError.
Proof.
  unfold log_usage. destruct (usage r) as [[u|]|]; [|done..].
  rewrite !bind_info. cbn [snd]. intros H.
  apply bind_error in H as [H|(p & _ & H)]; [by apply format_d_error in H|].
  rewrite bind_info in H. cbn [snd] in H.
  apply bind_error in H as [H|(c & _ & H)]; [by apply format_d_error in H|].
  rewrite bind_info in H. cbn [snd] in H.
  destruct (total_tokens u) as [t|]; [|done].
  apply bind_error in H as [H|(t' & _ & H)]; [by apply format_d_error in H|done].
Qed.

Lemma log_finish_reason_error r e :
  (log_finish_reason r).2 = Raise e → e = TypeError ∨ e = ValueError.
Proof.
  unfold log_finish_reason. destruct (finish_reason r) as [v|]; [|done].
  rewrite bind_info. cbn [snd]. intros H.
  apply bind_error in H as [H|(s & _ & H)]; [by apply format_s_error in H|done].
Qed.

Lemma log_response_error call_id r e :
  (log_response call_id r).2 = Raise e → own_error e.
Proof.
  unfold log_response, own_error. rewrite !bind_info. cbn [snd]. intros H.
  apply bind_error in H as [H|([] & _ & H)];
    [by rewrite log_content_returns in H|].
  apply bind_error in H as [H|([] & _ & H)];
    [by rewrite log_thought_returns in H|].
  apply bind_error in H as [H|([] & _ & H)];
    [apply log_usage_error in H; tauto|].
  apply bind_error in H as [H|([] & _ & H)];
    [apply log_finish_reason_error in H; tauto|done].
Qed.

(** An exception of [create] is the delegate's or one of its own. *)
Lemma create_error self messages kwargs super e :
  (create self messages kwargs super).2 = Raise e →
  super messages kwargs = Raise e ∨ own_error e.
Proof.
  unfold create. simpl.
  destruct (log_request _ messages kwargs) as [l1 [[]|e1]] eqn:E1.
  - destruct (super messages kwargs) as [r|e2]; [|intros [= ->]; by left].
    destruct (log_response _ r) as [l2 [[]|e3]] eqn:E3; [done|].
    intros [= ->]. right. apply (log_response_error (S (call_count self)) r).
    by rewrite E3.
  - intros [= ->]. right.
    apply (log_request_error (S (call_count self)) messages kwargs).
    by rewrite E1.
Qed.

End ErrorFacts.

Module BlockFacts.
Import DebugVLLMClient StrFacts WrapFacts LogFacts CreateFacts RaiseFacts ErrorFacts.

Lemma bind_mem {A B} (m : logged A) (k : A → logged B) l :
  l ∈ (m ≫= k).1 → l ∈ m.1 ∨ ∃ a, m.2 = Return a ∧ l ∈ (k a).1.
Proof.
  destruct m as [l1 [a|e]]; simpl; [|auto].
  destruct (k a) as [l2 r] eqn:E. simpl. rewrite elem_of_app.
  intros [H|H]; [by left|]. right. exists a. by rewrite E.
Qed.

Lemma for_enumerate_mem {A} idx (xs : list A) body l :
  l ∈ (for_enumerate idx xs body).1 → ∃ i x, l ∈ (body i x).1.
Proof.
  revert idx. induction xs as [|x xs IH]; intros idx; [by inversion 1|].
  cbn [for_enumerate]. intros H.
  apply bind_mem in H as [H|([] & _ & H)]; [by eauto|by eapply IH].
Qed.

(** The lines of the four sections of a response block. *)

Lemma wrap_text_mem row text l :
  l ∈ (wrap_text row text).1 → ∃ r, l = row r ∧ Str.len r = 96.
Proof.
  rewrite wrap_text_rows. cbn [fst]. rewrite list_elem_of_In, in_flat_map.
  intros (ln & _ & H). apply list_elem_of_In in H. rewrite wrap_rows_slices in H.
  apply list_elem_of_fmap in H as (r & -> & H). exists r. split; [done|].
  pose proof (rows_full_width 96 ln) as Hall.
  rewrite Forall_forall in Hall. by apply Hall.
Qed.

Lemma log_item_mem idx item l :
  l ∈ (log_item idx item).1 →
  (∃ r, l = ItemRow idx r ∧ Str.len r = 91)
  ∨ (∃ r, l = ItemContinuationRow r ∧ Str.len r = 91).
Proof.
  rewrite log_item_rows. cbn [fst]. rewrite elem_of_cons.
  intros [->|H].
  - left. eexists. split; [done|]. rewrite len_ljust, len_take. lia.
  - right. rewrite wrap_rows_slices in H.
    apply list_elem_of_fmap in H as (r & -> & H). exists r. split; [done|].
    pose proof (rows_full_width 91 (Str.drop 91 (py_str item))) as Hall.
    rewrite Forall_forall in Hall. by apply Hall.
Qed.

Lemma log_content_mem r l :
  l ∈ (log_content r).1 →
  l = ContentHeader ∨ l = Sep
  ∨ (section_of l = Some ContentSection ∧ row_fits l).
Proof.
  unfold log_content. destruct (content r) as [c|]; [|by inversion 1].
  destruct (content_truthy c); [|by inversion 1]. unfold when.
  rewrite !bind_info. cbn [fst]. rewrite !elem_of_cons.
  intros [->|[->|H]]; auto. right. right. destruct c as [v|elems].
  - apply wrap_text_mem in H as (row & -> & Hlen). done.
  - apply for_enumerate_mem in H as (i & x & H).
    apply log_item_mem in H as [(row & -> & Hlen)|(row & -> & Hlen)]; done.
Qed.

Lemma log_thought_mem r l :
  l ∈ (log_thought r).1 →
  l = ThoughtHeader ∨ l = Sep
  ∨ (section_of l = Some ThoughtSection ∧ row_fits l).
Proof.
  unfold log_thought. destruct (thought r) as [t|]; [|by inversion 1].
  destruct (truthy t); [|by inversion 1]. unfold when.
  rewrite !bind_info. cbn [fst]. rewrite !elem_of_cons.
  intros [->|[->|[->|H]]]; auto. right. right.
  apply wrap_text_mem in H as (row & -> & Hlen). done.
Qed.

Lemma log_usage_mem r l :
  l ∈ (log_usage r).1 → l = Sep ∨ section_of l = Some UsageSection.
Proof.
  unfold log_usage. destruct (usage r) as [[[p c t]|]|]; simpl; [|by inversion 1..].
  destruct p, c, t as [[]|]; simpl; rewrite ?elem_of_cons;
    intros H; repeat (destruct H as [->|H]; [auto|]); by inversion H.
Qed.

Lemma log_finish_reason_mem r l :
  l ∈ (log_finish_reason r).1 → l = Sep ∨ section_of l = Some FinishSection.
Proof.
  unfold log_finish_reason. destruct (finish_reason r) as [[]|]; simpl;
    rewrite ?elem_of_cons;
    intros H; repeat (destruct H as [->|H]; [auto|]); by inversion H.
Qed.

(** A line of the response block, and what the block has done when the
    line is the closing frame. *)
Lemma log_response_mem call_id r l :
  l ∈ (log_response call_id r).1 →
  (l = Bottom ∧ (log_response call_id r).2 = Return tt)
  ∨ (l ≠ Bottom ∧ row_fits l).
Proof.
  unfold log_response. rewrite !bind_info. cbn [fst snd]. rewrite !elem_of_cons.
  intros [->|[->|[->|H]]]; [by right..|].
  apply bind_mem in H as [H|([] & E1 & H)].
  { apply log_content_mem in H as [->|[->|[Hs Hf]]]; right; try done.
    split; [|done]. by intros ->. }
  rewrite (bind_snd_return _ _ tt E1).
  apply bind_mem in H as [H|([] & E2 & H)].
  { apply log_thought_mem in H as [->|[->|[Hs Hf]]]; right; try done.
    split; [|done]. by intros ->. }
  rewrite (bind_snd_return _ _ tt E2).
  apply bind_mem in H as [H|([] & E3 & H)].
  { apply log_usage_mem in H as [->|Hs]; right; [done|].
    split; [by intros ->|by destruct l]. }
  rewrite (bind_snd_return _ _ tt E3).
  apply bind_mem in H as [H|([] & E4 & H)].
  { apply log_finish_reason_mem in H as [->|Hs]; right; [done|].
    split; [by intros ->|by destruct l]. }
  rewrite (bind_snd_return _ _ tt E4).
  simpl in H. apply list_elem_of_singleton in H as ->. by left.
Qed.

Lemma extra_params_lines (kvs : list (string * scalar)) :
  forallb (λ kv, is_str kv.2) kvs = true →
  for_each kvs (λ kv,
    value ← eval (format_s 86 kv.2) ;
    info (ExtraBodyParam kv.1 value))
  = ((λ kv, ExtraBodyParam kv.1 (Str.ljust 86 (py_str kv.2))) <$> kvs, Return tt).
Proof.
  induction kvs as [|kv kvs IH]; [done|]. intros Hall. cbn [forallb] in Hall.
  apply andb_true_iff in Hall as [Hkv Hall]. cbn [for_each fmap list_fmap].
  rewrite (eval_return_bind _ _ _ (format_s_returns 86 _ Hkv)).
  rewrite bind_info, (IH Hall). done.
Qed.

Lemma extra_params_mem (kvs : list (string * scalar)) l :
  l ∈ (for_each kvs (λ kv,
         value ← eval (format_s 86 kv.2) ;
         info (ExtraBodyParam kv.1 value))).1 →
  ∃ key value, l = ExtraBodyParam key value.
Proof.
  induction kvs as [|kv kvs IH]; [by inversion 1|]. cbn [for_each]. intros H.
  apply bind_mem in H as [H|([] & _ & H)]; [|by apply IH].
  apply bind_mem in H as [H|(value & _ & H)]; [by inversion H|].
  simpl in H. apply list_elem_of_singleton in H as ->. eauto.
Qed.

Lemma log_request_lines call_id messages kwargs :
  kwargs_typed kwargs = true →
  log_request call_id messages kwargs =
    ([ Top; RequestTitle call_id; Mid;
       ModelLine (Str.ljust 91 (model_name kwargs));
       MessagesLine (length messages) ]
     ++ extra_body_lines kwargs ++ [ Bottom ],
     Return tt).
Proof.
  unfold kwargs_typed, log_request, model_name, extra_body_lines. intros Ht.
  apply andb_true_iff in Ht as [Hm He]. rewrite !bind_info.
  assert (format_s_kw 91 (default (KScalar (VStr "N/A")) (kwargs !! "model"))
          = Return (Str.ljust 91
              match kwargs !! "model" with
              | Some (KScalar (VStr s)) => s
              | _ => "N/A"
              end)) as ->.
  { destruct (kwargs !! "model") as [[[]|]|]; done. }
  rewrite (eval_return_bind _ _ _ eq_refl), !bind_info. cbn [fst snd].
  destruct (kwargs !! "extra_body") as [[v|kvs]|]; [done| |done].
  rewrite bind_info. cbn [items fst snd]. rewrite (eval_return_bind _ _ kvs eq_refl).
  rewrite (extra_params_lines kvs He). done.
Qed.

Lemma log_request_mem call_id messages kwargs :
  Bottom ∈ (log_request call_id messages kwargs).1 →
  (log_request call_id messages kwargs).2 = Return tt.
Proof.
  unfold log_request. rewrite !bind_info. cbn [fst snd]. rewrite !elem_of_cons.
  intros [?|[?|[?|H]]]; [done..|].
  apply bind_mem in H as [H|(model & E1 & H)]; [by inversion H|].
  rewrite (bind_snd_return _ _ model E1).
  rewrite !bind_info in *. cbn [fst snd] in *. rewrite !elem_of_cons in H.
  destruct H as [?|[?|H]]; [done..|].
  apply bind_mem in H as [H|([] & E2 & H)].
  - destruct (kwargs !! "extra_body") as [[v|kvs]|]; [| |by inversion H].
    + rewrite bind_info in H. simpl in H. by inversion H; subst; inversion H2.
    + rewrite bind_info in H. cbn [fst items] in H.
      rewrite (eval_return_bind _ _ kvs eq_refl) in H.
      apply elem_of_cons in H as [?|H]; [done|].
      by apply extra_params_mem in H as (? & ? & ?).
  - by rewrite (bind_snd_return _ _ tt E2).
Qed.

End BlockFacts.

(** ** Further properties of [DebugVLLMClient] *)

Import DebugVLLMClient StrFacts WrapFacts LogFacts CreateFacts RaiseFacts RunFacts.
Import ErrorFacts BlockFacts.

(** X1: when the inherited [create] returns a response, [create] returns it
    exactly when the options and the response have the documented types; in
    any other case it raises [TypeError], [ValueError] or [AttributeError]
    itself, the counter has moved and the history has not. *)
Theorem create_returns_or_raises_its_own self messages kwargs super r :
  super messages kwargs = Return r →
  ((create self messages kwargs super).2 = Return r
   ↔ kwargs_typed kwargs = true ∧ response_typed r = true) ∧
  (∀ e, (create self messages kwargs super).2 = Raise e →
     own_error e ∧
     raw_responses (create self messages kwargs super).1.1 = raw_responses self ∧
     call_count (create self messages kwargs super).1.1 = S (call_count self)).
Proof.
  intros Hsuper. split; [by apply create_returns_iff|].
  intros e He. split.
  - destruct (create_error _ _ _ _ _ He) as [H|H]; [congruence|done].
  - destruct (create_cases self messages kwargs super)
      as [(r0 & _ & H1 & _)|(e' & _ & ->)]; simpl in *; [congruence|done].
Qed.

Lemma create_returns_or_raises_its_own_witness :
  answers none_reason [VStr "hi"] ∅ = Return none_reason ∧
  response_typed none_reason = false ∧
  own_error TypeError ∧
  (create init [VStr "hi"] ∅ (answers none_reason)).2 = Raise TypeError ∧
  raw_responses (create init [VStr "hi"] ∅ (answers none_reason)).1.1 = [] ∧
  call_count (create init [VStr "hi"] ∅ (answers none_reason)).1.1 = 1.
Proof.
  split; [reflexivity|]. split; [reflexivity|].
  destruct (create_returns_or_raises_its_own init [VStr "hi"] ∅
              (answers none_reason) none_reason eq_refl) as [_ Hraise].
  destruct (Hraise TypeError eq_refl) as (Hown & Hhist & Hcount).
  split; [exact Hown|]. split; [reflexivity|]. split; [exact Hhist|exact Hcount].
Defined.

(** X2: when the model name or a value of [extra_body] is not a string (or
    [extra_body] is not a dict), [create] raises before the inherited
    [create] is called: whatever the delegate, the result is the same
    exception of its own, the same lines without the closing frame of the
    request block, the counter moved and the history untouched. *)
Theorem request_error_skips_delegate self messages kwargs :
  kwargs_typed kwargs = false →
  ∃ l e, own_error e ∧ (Bottom ∉ l) ∧
    ∀ super, create self messages kwargs super = (bump self, l, Raise e).
Proof.
  intros Ht.
  destruct (log_request_raises (S (call_count self)) messages kwargs Ht) as [e He].
  destruct (log_request (S (call_count self)) messages kwargs) as [l res] eqn:E.
  simpl in He. subst res. exists l, e. split; [|split].
  - apply (log_request_error (S (call_count self)) messages kwargs). by rewrite E.
  - intros Hb.
    pose proof (log_request_mem (S (call_count self)) messages kwargs) as Hm.
    rewrite E in Hm. simpl in Hm. by specialize (Hm Hb).
  - intros super. by apply create_request_raises.
Qed.

Lemma request_error_skips_delegate_witness :
  kwargs_typed mixed_extra_body = false ∧
  ∃ l e, own_error e ∧ (Bottom ∉ l) ∧
    ∀ super, create init [VStr "hi"] mixed_extra_body super = (bump init, l, Raise e).
Proof.
  split; [reflexivity|].
  exact (request_error_skips_delegate init [VStr "hi"] mixed_extra_body eq_refl).
Defined.

(** X3: with options of the documented types the request block is the
    frame, the title with the identifier of the call, the model name padded to
    91 characters, [N/A] when there is no [model] option, the number of
    messages, then, when there is an [extra_body] option, its header and one
    line for each of its items in the order of the dict, and the closing
    frame. *)
Theorem request_block call_id messages kwargs :
  kwargs_typed kwargs = true →
  log_request call_id messages kwargs =
    ([ Top; RequestTitle call_id; Mid;
       ModelLine (Str.ljust 91 (model_name kwargs));
       MessagesLine (length messages) ]
     ++ extra_body_lines kwargs ++ [ Bottom ],
     Return tt) ∧
  (kwargs !! "model" = None → model_name kwargs = "N/A") ∧
  (kwargs !! "extra_body" = None → extra_body_lines kwargs = []).
Proof.
  intros Ht. split; [by apply log_request_lines|].
  unfold model_name, extra_body_lines. by split; intros ->.
Qed.

Lemma request_block_witness :
  kwargs_typed typed_options = true ∧
  log_request 4 [VStr "hi"; VStr "there"] typed_options =
    ([ Top; RequestTitle 4; Mid; ModelLine (Str.ljust 91 "gpt-oss");
       MessagesLine 2; ExtraBodyHeader;
       ExtraBodyParam "reasoning_effort" (Str.ljust 86 "high"); Bottom ],
     Return tt).
Proof.
  split; [reflexivity|].
  exact (proj1 (request_block 4 [VStr "hi"; VStr "there"] typed_options eq_refl)).
Defined.

(** X4: the closing frame of a block is logged exactly when the block is
    logged to its end: a request or a response block that raises is left
    open. *)
Theorem closing_frame_iff_returns call_id messages kwargs r :
  (Bottom ∈ (log_request call_id messages kwargs).1
   ↔ (log_request call_id messages kwargs).2 = Return tt) ∧
  (Bottom ∈ (log_response call_id r).1
   ↔ (log_response call_id r).2 = Return tt).
Proof.
  split; split.
  - apply log_request_mem.
  - intros Hret. apply log_request_returns_iff in Hret.
    rewrite (log_request_lines call_id messages kwargs Hret). cbn [fst].
    rewrite !elem_of_app. right. right. apply list_elem_of_here.
  - intros Hb. by destruct (log_response_mem call_id r Bottom Hb) as [[_ ?]|[? _]].
  - intros Hret. apply log_response_returns_iff in Hret.
    rewrite (log_response_lines call_id r Hret). cbn [fst].
    rewrite !elem_of_app. do 5 right. apply list_elem_of_here.
Qed.

(** X5: whatever the call, every content or thought row [create] logs is 96
    characters wide and every row of a list item 91: the rows of a block
    never leave its frame. *)
Theorem rows_fit_the_frame self messages kwargs super l :
  l ∈ (create self messages kwargs super).1.2 → row_fits l.
Proof.
  assert (∀ l1, l ∈ l1 → l1 = (log_request (S (call_count self)) messages kwargs).1 →
          row_fits l) as Hreq.
  { intros l1 Hl ->. unfold log_request in Hl. rewrite !bind_info in Hl.
    cbn [fst] in Hl. rewrite !elem_of_cons in Hl.
    destruct Hl as [->|[->|[->|Hl]]]; [done..|].
    apply bind_mem in Hl as [Hl|(model & _ & Hl)]; [by inversion Hl|].
    rewrite !bind_info in Hl. cbn [fst] in Hl. rewrite !elem_of_cons in Hl.
    destruct Hl as [->|[->|Hl]]; [done..|].
    apply bind_mem in Hl as [Hl|([] & _ & Hl)].
    - destruct (kwargs !! "extra_body") as [[v|kvs]|]; [| |by inversion Hl].
      + rewrite bind_info in Hl. simpl in Hl.
        apply list_elem_of_singleton in Hl as ->. done.
      + rewrite bind_info in Hl. cbn [fst items] in Hl.
        rewrite (eval_return_bind _ _ kvs eq_refl) in Hl.
        apply elem_of_cons in Hl as [->|Hl]; [done|].
        by apply extra_params_mem in Hl as (? & ? & ->).
    - simpl in Hl. apply list_elem_of_singleton in Hl as ->. done. }
  unfold create. simpl.
  destruct (log_request _ messages kwargs) as [l1 [[]|e1]] eqn:E1; simpl.
  - destruct (super messages kwargs) as [r|e2]; simpl.
    + assert (l ∈ l1 ++ (log_response (S (call_count self)) r).1 → row_fits l) as H.
      { rewrite elem_of_app. intros [Hl|Hl]; [by eapply Hreq|].
        by destruct (log_response_mem _ _ _ Hl) as [[-> _]|[_ ?]]. }
      by destruct (log_response _ r) as [l2 [[]|e3]].
    + intros Hl. by eapply Hreq.
  - intros Hl. by eapply Hreq.
Qed.

Lemma rows_fit_the_frame_witness :
  ContentRow (Str.ljust 96 "Hello")
    ∈ (create init [VStr "hi"] ∅ (answers hello)).1.2 ∧
  row_fits (ContentRow (Str.ljust 96 "Hello")).
Proof.
  assert (ContentRow (Str.ljust 96 "Hello")
            ∈ (create init [VStr "hi"] ∅ (answers hello)).1.2) as Hin.
  { vm_compute. do 11 apply list_elem_of_further. apply list_elem_of_here. }
  split; [exact Hin|].
  exact (rows_fit_the_frame init [VStr "hi"] ∅ (answers hello) _ Hin).
Defined.

Module SplitFacts.
Import StrFacts WrapFacts.

Lemma append_assoc s t u : (s +:+ t) +:+ u = s +:+ (t +:+ u).
Proof. induction s as [|c s IH]; [done|]. by rewrite !append_cons, IH. Qed.

Lemma concat_app ps qs : Str.concat (ps ++ qs) = Str.concat ps +:+ Str.concat qs.
Proof.
  induction ps as [|p ps IH]; [done|].
  rewrite <- app_comm_cons, !concat_cons, IH. by rewrite append_assoc.
Qed.

Lemma split_nl_cons s : ∃ piece pieces, Str.split_nl s = piece :: pieces.
Proof.
  induction s as [|c s (piece & pieces & IH)]; simpl; [by eauto|].
  destruct (Ascii.eqb c Str.nl); [by eauto|]. rewrite IH. eauto.
Qed.

Lemma join_nl_cons p q qs :
  join_nl (p :: q :: qs) = p +:+ String Str.nl (join_nl (q :: qs)).
Proof. reflexivity. Qed.

Lemma join_split s : join_nl (Str.split_nl s) = s.
Proof.
  induction s as [|c s IH]; [done|]. simpl.
  destruct (split_nl_cons s) as (piece & pieces & E). rewrite E in *.
  destruct (Ascii.eqb c Str.nl) eqn:Hc.
  - apply Ascii.eqb_eq in Hc as ->. by rewrite join_nl_cons, append_nil_l, IH.
  - destruct pieces as [|q qs].
    + simpl in *. by rewrite IH.
    + rewrite join_nl_cons in *. by rewrite append_cons, IH.
Qed.

Lemma split_pieces s : Forall (λ p, has_nl p = false) (Str.split_nl s).
Proof.
  induction s as [|c s IH]; simpl; [by repeat constructor|].
  destruct (Ascii.eqb c Str.nl) eqn:Hc; [by constructor|].
  destruct (Str.split_nl s) as [|piece pieces]; [by repeat constructor; simpl; rewrite Hc|].
  inversion IH; subst. constructor; [|done]. simpl. by rewrite Hc.
Qed.

Lemma concat_split s : Str.concat (Str.split_nl s) = remove_nl s.
Proof.
  induction s as [|c s IH]; [done|]. simpl.
  destruct (split_nl_cons s) as (piece & pieces & E). rewrite E in *.
  destruct (Ascii.eqb c Str.nl).
  - by rewrite concat_cons, append_nil_l.
  - rewrite concat_cons in *. by rewrite append_cons, IH.
Qed.

Lemma concat_flat_slices W (lines : list string) :
  0 < W → Str.concat (flat_map (slices W) lines) = Str.concat lines.
Proof.
  intros HW. induction lines as [|ln lines IH]; [done|].
  cbn [flat_map]. by rewrite concat_app, concat_slices, IH, concat_cons.
Qed.

Lemma fmap_flat_map {A B C} (f : B → C) (g : A → list B) (xs : list A) :
  f <$> flat_map g xs = flat_map (λ x, f <$> g x) xs.
Proof.
  induction xs as [|x xs IH]; [done|]. cbn [flat_map]. by rewrite fmap_app, IH.
Qed.

End SplitFacts.

Import DebugVLLMClient StrFacts WrapFacts LogFacts SplitFacts.

(** X6: splitting a text on newlines loses nothing: there is always at
    least one piece, no piece has a newline, and the pieces joined by
    newlines are the text. *)
Theorem split_loses_nothing text :
  Str.split_nl text ≠ [] ∧
  Forall (λ p, has_nl p = false) (Str.split_nl text) ∧
  join_nl (Str.split_nl text) = text.
Proof.
  split; [|split; [apply split_pieces|apply join_split]].
  by destruct (split_nl_cons text) as (piece & pieces & ->).
Qed.

(** X7: the rows a scalar content or a thought is logged on carry the text
    without its newlines: each row is a non-empty piece of at most 96
    characters padded to 96, and the pieces put together, in the order of the
    rows, are the text with the newlines taken out: nothing else of the text
    is lost and nothing is added but the padding. *)
Theorem rows_carry_the_text row text :
  (wrap_text row text).1 = row ∘ Str.ljust 96 <$> row_texts text ∧
  Forall (λ p, 0 < Str.len p ≤ 96) (row_texts text) ∧
  Str.concat (row_texts text) = remove_nl text.
Proof.
  unfold row_texts. split; [|split].
  - rewrite wrap_text_rows. cbn [fst]. rewrite fmap_flat_map.
    apply flat_map_ext. intros ln. by rewrite wrap_rows_slices, list_fmap_compose.
  - apply Forall_forall. intros p Hp.
    apply list_elem_of_In, in_flat_map in Hp as (ln & _ & Hp).
    apply list_elem_of_In in Hp.
    pose proof (slices_nonempty 96 ln ltac:(lia)) as Hall.
    rewrite Forall_forall in Hall. by apply Hall.
  - rewrite concat_flat_slices by lia. apply concat_split.
Qed.

Module TitleFacts.
Import DebugVLLMClient LogFacts CreateFacts RaiseFacts RunFacts ErrorFacts BlockFacts.

Lemma request_titles_none log :
  (∀ l id, l ∈ log → l ≠ RequestTitle id) → request_titles log = [].
Proof.
  induction log as [|l log IH]; intros Hfree; [done|].
  unfold request_titles in *. cbn [omap list_omap].
  destruct l; try (apply IH; intros; apply Hfree; by right).
  exfalso. eapply Hfree; [by left|done].
Qed.

Lemma request_titles_app l1 l2 :
  request_titles (l1 ++ l2) = request_titles l1 ++ request_titles l2.
Proof. apply omap_app. Qed.

Lemma request_titles_head call_id rest :
  request_titles (Top :: RequestTitle call_id :: Mid :: rest)
    = call_id :: request_titles rest.
Proof. reflexivity. Qed.

Lemma log_request_titles call_id messages kwargs :
  request_titles (log_request call_id messages kwargs).1 = [call_id].
Proof.
  unfold log_request. rewrite !bind_info. cbn [fst].
  rewrite request_titles_head.
  f_equal. apply request_titles_none. intros l id Hl.
  apply bind_mem in Hl as [Hl|(model & _ & Hl)]; [by inversion Hl|].
  rewrite !bind_info in Hl. cbn [fst] in Hl. rewrite !elem_of_cons in Hl.
  destruct Hl as [->|[->|Hl]]; [done..|].
  apply bind_mem in Hl as [Hl|([] & _ & Hl)].
  - destruct (kwargs !! "extra_body") as [[v|kvs]|]; [| |by inversion Hl].
    + rewrite bind_info in Hl. simpl in Hl.
      apply list_elem_of_singleton in Hl as ->. done.
    + rewrite bind_info in Hl. cbn [fst items] in Hl.
      rewrite (eval_return_bind _ _ kvs eq_refl) in Hl.
      apply elem_of_cons in Hl as [->|Hl]; [done|].
      by apply extra_params_mem in Hl as (? & ? & ->).
  - simpl in Hl. apply list_elem_of_singleton in Hl as ->. done.
Qed.

Lemma log_response_titles call_id r :
  request_titles (log_response call_id r).1 = [].
Proof.
  apply request_titles_none. intros l id Hl.
  unfold log_response in Hl. rewrite !bind_info in Hl. cbn [fst] in Hl.
  rewrite !elem_of_cons in Hl. destruct Hl as [->|[->|[->|Hl]]]; [done..|].
  apply bind_mem in Hl as [Hl|([] & _ & Hl)].
  { apply log_content_mem in Hl as [->|[->|[Hs _]]]; [done..|by intros ->]. }
  apply bind_mem in Hl as [Hl|([] & _ & Hl)].
  { apply log_thought_mem in Hl as [->|[->|[Hs _]]]; [done..|by intros ->]. }
  apply bind_mem in Hl as [Hl|([] & _ & Hl)].
  { apply log_usage_mem in Hl as [->|Hs]; [done|by intros ->]. }
  apply bind_mem in Hl as [Hl|([] & _ & Hl)].
  { apply log_finish_reason_mem in Hl as [->|Hs]; [done|by intros ->]. }
  simpl in Hl. apply list_elem_of_singleton in Hl as ->. done.
Qed.

Lemma create_titles self messages kwargs super :
  request_titles (create self messages kwargs super).1.2 = [S (call_count self)].
Proof.
  pose proof (log_request_titles (S (call_count self)) messages kwargs) as H1.
  unfold create. simpl.
  destruct (log_request _ messages kwargs) as [l1 [[]|e1]]; simpl in *; [|done].
  destruct (super messages kwargs) as [r|e2]; simpl; [|done].
  pose proof (log_response_titles (S (call_count self)) r) as H2.
  destruct (log_response _ r) as [l2 [[]|e3]]; simpl in *;
    by rewrite request_titles_app, H1, H2.
Qed.

Lemma run_returned_records self calls :
  raw_responses (run self calls).1
    = raw_responses self ++ returned_records (call_count self) (run self calls).2.
Proof.
  revert self. induction calls as [|c calls IH]; intros self.
  - simpl. by rewrite app_nil_r.
  - rewrite run_cons. cbn [fst snd].
    rewrite (IH (create self (c_messages c) (c_kwargs c) (c_super c)).1.1).
    rewrite create_call_count.
    destruct (create_cases self (c_messages c) (c_kwargs c) (c_super c))
      as [(r & _ & -> & ->)|(e & -> & ->)]; simpl; [|done].
    by rewrite <- app_assoc.
Qed.

End TitleFacts.

Import DebugVLLMClient LogFacts CreateFacts RaiseFacts RunFacts TitleFacts.

(** X8: after any calls the history is the records of the calls that
    returned, in the order of the calls, each with the position of its call
    as identifier and the response of its delegate; and a call returns a
    response exactly when its delegate returns it and the options and the
    response have the documented types. *)
Theorem history_is_the_returned_calls self calls :
  raw_responses (run self calls).1
    = raw_responses self ++ returned_records (call_count self) (run self calls).2 ∧
  Forall2 (λ c out, ∀ r, out = Return r ↔ gives c r) calls (run self calls).2.
Proof.
  split; [apply run_returned_records|].
  revert self. induction calls as [|c calls IH]; intros self; [constructor|].
  rewrite run_cons. cbn [snd]. constructor; [|apply IH].
  intros r. unfold gives, outcome. split.
  - intros Hret.
    destruct (create_cases self (c_messages c) (c_kwargs c) (c_super c))
      as [(r0 & Hsuper & H1 & _)|(e & H1 & _)]; simpl in *; [|congruence].
    assert (r0 = r) as -> by congruence. split; [done|].
    by apply (create_returns_iff self (c_messages c) (c_kwargs c) (c_super c) r).
  - intros (Hsuper & Hk & Hr).
    by apply (create_returns_iff self (c_messages c) (c_kwargs c) (c_super c) r).
Qed.

(** X9: every call logs the title of its request with an identifier of its
    own, whether it returns or raises: over calls made one after the other on
    a new client the identifiers in the request titles are 1, 2, ..., N, one
    for each call and in this order. *)
Theorem request_titles_are_dense self calls :
  request_titles (run_log self calls)
    = seq (S (call_count self)) (length calls).
Proof.
  revert self. induction calls as [|c calls IH]; intros self; [done|].
  cbn [run_log]. rewrite request_titles_app, create_titles, IH, create_call_count.
  done.
Qed.

(** ** Properties of [RawVLLMResponseCapture] *)

Module RawFacts.
Import StrFacts.

Lemma raw_run_cons object_class self c calls :
  RawVLLMResponseCapture.run object_class self (c :: calls) =
    ((RawVLLMResponseCapture.run object_class
        (RawVLLMResponseCapture.create object_class self
           (DebugVLLMClient.c_messages c) (DebugVLLMClient.c_kwargs c)
           (DebugVLLMClient.c_super c)).1.1 calls).1,
     (RawVLLMResponseCapture.create object_class self
        (DebugVLLMClient.c_messages c) (DebugVLLMClient.c_kwargs c)
        (DebugVLLMClient.c_super c)).2
       :: (RawVLLMResponseCapture.run object_class
             (RawVLLMResponseCapture.create object_class self
                (DebugVLLMClient.c_messages c) (DebugVLLMClient.c_kwargs c)
                (DebugVLLMClient.c_super c)).1.1 calls).2).
Proof.
  cbn [RawVLLMResponseCapture.run].
  destruct (RawVLLMResponseCapture.create _ self _ _ _) as [[self' l] out]. simpl.
  by destruct (RawVLLMResponseCapture.run _ self' calls).
Qed.

Lemma create_eq object_class self messages kwargs super :
  RawVLLMResponseCapture.create object_class self messages kwargs super =
    match super messages kwargs with
    | Return r =>
        (RawVLLMResponseCapture.store (RawVLLMResponseCapture.bump self)
           (RawVLLMResponseCapture.record_of
              (S (RawVLLMResponseCapture.call_count self)) r),
         [ RawVLLMResponseCapture.Rule;
           RawVLLMResponseCapture.SendingRequest
             (S (RawVLLMResponseCapture.call_count self));
           RawVLLMResponseCapture.RequestRule ]
         ++ RawVLLMResponseCapture.log_response object_class r,
         Return r)
    | Raise e =>
        (RawVLLMResponseCapture.bump self,
         [ RawVLLMResponseCapture.Rule;
           RawVLLMResponseCapture.SendingRequest
             (S (RawVLLMResponseCapture.call_count self));
           RawVLLMResponseCapture.RequestRule ],
         Raise e)
    end.
Proof. reflexivity. Qed.

Lemma raw_count_length outs :
  length (raw_returned_records 0 outs) = count_returned outs.
Proof.
  generalize 0. induction outs as [|[r|e] outs IH]; intros base; simpl; auto.
Qed.

Lemma raw_ids_all_returned base (rs : list Response) :
  RawVLLMResponseCapture.call_id <$> raw_returned_records base (Return <$> rs)
    = seq (S base) (length rs).
Proof.
  revert base. induction rs as [|r rs IH]; intros base; [done|].
  simpl. by rewrite IH.
Qed.

Lemma same_call_records base outs :
  Forall2 same_call (returned_records base outs) (raw_returned_records base outs).
Proof.
  revert base. induction outs as [|[r|e] outs IH]; intros base; simpl;
    [constructor| |apply IH].
  constructor; [|apply IH]. unfold same_call. simpl.
  by destruct (content r), (thought r).
Qed.

(** The two replacements of line 196. *)

Lemma len_replace_newlines s :
  Str.len (RawVLLMResponseCapture.replace_newlines s) = Str.len s.
Proof. unfold Str.len. induction s as [|c s IH]; simpl; [done|by rewrite IH]. Qed.

Lemma replace_newlines_clean s :
  has_nl (RawVLLMResponseCapture.replace_newlines s) = false.
Proof.
  induction s as [|c s IH]; simpl; [done|]. rewrite IH.
  destruct (Ascii.eqb c Str.nl) eqn:Hc; [done|]. by rewrite Hc.
Qed.

Lemma len_replace_newline_pairs s :
  Str.len (RawVLLMResponseCapture.replace_newline_pairs s) ≤ Str.len s.
Proof.
  unfold Str.len. remember (String.length s) as n eqn:Hn.
  revert s Hn. induction (lt_wf n) as [n _ IH]. intros s ->.
  destruct s as [|c [|c' s]]; simpl; [lia..|].
  destruct (Ascii.eqb c Str.nl && Ascii.eqb c' Str.nl); simpl.
  - pose proof (IH (String.length s) ltac:(simpl; lia) s eq_refl). lia.
  - pose proof (IH (String.length (String c' s)) ltac:(simpl; lia) _ eq_refl).
    simpl in *. lia.
Qed.

Lemma has_nl_take n s : has_nl s = false → has_nl (Str.take n s) = false.
Proof.
  revert s. induction n as [|n IH]; intros [|c s]; simpl; try done.
  intros H. apply orb_false_iff in H as [-> H]. by rewrite IH.
Qed.

Lemma run_spec object_class self calls :
  (RawVLLMResponseCapture.run object_class self calls).2
    = DebugVLLMClient.outcome <$> calls ∧
  RawVLLMResponseCapture.call_count
      (RawVLLMResponseCapture.run object_class self calls).1
    = RawVLLMResponseCapture.call_count self + length calls ∧
  RawVLLMResponseCapture.raw_json_responses
      (RawVLLMResponseCapture.run object_class self calls).1
    = RawVLLMResponseCapture.raw_json_responses self
      ++ raw_returned_records (RawVLLMResponseCapture.call_count self)
           (DebugVLLMClient.outcome <$> calls).
Proof.
  revert self. induction calls as [|c calls IH]; intros self.
  - simpl. rewrite app_nil_r. repeat split; lia.
  - rewrite raw_run_cons, create_eq. cbn [fmap list_fmap].
    unfold DebugVLLMClient.outcome at 1 3.
    destruct (DebugVLLMClient.c_super c _ _) as [r|e]; cbn [fst snd].
    + destruct (IH (RawVLLMResponseCapture.store (RawVLLMResponseCapture.bump self)
                      (RawVLLMResponseCapture.record_of
                         (S (RawVLLMResponseCapture.call_count self)) r)))
        as (IH1 & IH2 & IH3).
      rewrite IH1, IH2, IH3. simpl. rewrite <- app_assoc. repeat split; lia.
    + destruct (IH (RawVLLMResponseCapture.bump self)) as (IH1 & IH2 & IH3).
      rewrite IH1, IH2, IH3. simpl. repeat split; lia.
Qed.

End RawFacts.

Import RawFacts.

(** X10: [RawVLLMResponseCapture.create] formats every value with [str],
    so over any calls, whatever the types of the options and of the
    responses, each call gives its caller what its delegate gave, the counter
    is the number of the calls, and the history is the records of the calls
    whose delegate returned, each with the position of its call as
    identifier; when every delegate returns, the identifiers added are the
    next N integers in order, with no condition on what is returned. *)
Theorem raw_history_is_the_returned_calls object_class self calls :
  (RawVLLMResponseCapture.run object_class self calls).2
    = DebugVLLMClient.outcome <$> calls ∧
  RawVLLMResponseCapture.call_count
      (RawVLLMResponseCapture.run object_class self calls).1
    = RawVLLMResponseCapture.call_count self + length calls ∧
  RawVLLMResponseCapture.raw_json_responses
      (RawVLLMResponseCapture.run object_class self calls).1
    = RawVLLMResponseCapture.raw_json_responses self
      ++ raw_returned_records (RawVLLMResponseCapture.call_count self)
           (DebugVLLMClient.outcome <$> calls) ∧
  (∀ rs, DebugVLLMClient.outcome <$> calls = Return <$> rs →
     RawVLLMResponseCapture.call_id
       <$> RawVLLMResponseCapture.raw_json_responses
             (RawVLLMResponseCapture.run object_class self calls).1
     = (RawVLLMResponseCapture.call_id
          <$> RawVLLMResponseCapture.raw_json_responses self)
       ++ seq (S (RawVLLMResponseCapture.call_count self)) (length calls)).
Proof.
  destruct (run_spec object_class self calls) as (Houts & Hcount & Hhist).
  split; [done|]. split; [done|]. split; [done|].
  intros rs Hrs. rewrite Hhist, Hrs, fmap_app, raw_ids_all_returned.
  f_equal. f_equal.
  by rewrite <- (length_fmap DebugVLLMClient.outcome), Hrs, length_fmap.
Qed.

Lemma raw_history_is_the_returned_calls_witness :
  DebugVLLMClient.outcome <$> [ask (answers none_reason); ask (answers hello)]
    = Return <$> [none_reason; hello] ∧
  RawVLLMResponseCapture.call_id
    <$> RawVLLMResponseCapture.raw_json_responses
          (RawVLLMResponseCapture.run function_calls RawVLLMResponseCapture.init
             [ask (answers none_reason); ask (answers hello)]).1
  = [1; 2].
Proof.
  split; [reflexivity|].
  destruct (raw_history_is_the_returned_calls function_calls
              RawVLLMResponseCapture.init
              [ask (answers none_reason); ask (answers hello)]) as (_ & _ & _ & H).
  exact (H [none_reason; hello] eq_refl).
Defined.

(** X11: on calls with options and responses of the documented types the
    two clients do the same: the same results for their callers, and
    histories of the same length whose records have, pair by pair, the same
    identifier and response, the flags of [DebugVLLMClient] being the truth
    values of the content and of the thought [RawVLLMResponseCapture]
    stores. *)
Theorem clients_agree_on_typed_calls object_class calls :
  Forall (λ c, call_ok c = true) calls →
  (DebugVLLMClient.run DebugVLLMClient.init calls).2
    = (RawVLLMResponseCapture.run object_class RawVLLMResponseCapture.init calls).2 ∧
  Forall2 same_call
    (DebugVLLMClient.raw_responses (DebugVLLMClient.run DebugVLLMClient.init calls).1)
    (RawVLLMResponseCapture.raw_json_responses
       (RawVLLMResponseCapture.run object_class RawVLLMResponseCapture.init calls).1).
Proof.
  intros Hok.
  destruct (RunFacts.run_all_ok DebugVLLMClient.init calls Hok) as [_ Houts].
  destruct (run_spec object_class RawVLLMResponseCapture.init calls)
    as (Hraw & _ & Hhist).
  pose proof (TitleFacts.run_returned_records DebugVLLMClient.init calls) as Hdebug.
  split; [by rewrite Houts, Hraw|].
  rewrite Hdebug, Hhist, Houts. simpl. apply same_call_records.
Qed.

Lemma clients_agree_on_typed_calls_witness :
  Forall (λ c, call_ok c = true) [ask (answers hello); ask (answers silent)] ∧
  (DebugVLLMClient.run DebugVLLMClient.init
     [ask (answers hello); ask (answers silent)]).2
    = (RawVLLMResponseCapture.run function_calls RawVLLMResponseCapture.init
         [ask (answers hello); ask (answers silent)]).2 ∧
  Forall2 same_call
    (DebugVLLMClient.raw_responses
       (DebugVLLMClient.run DebugVLLMClient.init
          [ask (answers hello); ask (answers silent)]).1)
    (RawVLLMResponseCapture.raw_json_responses
       (RawVLLMResponseCapture.run function_calls RawVLLMResponseCapture.init
          [ask (answers hello); ask (answers silent)]).1).
Proof.
  assert (Forall (λ c, call_ok c = true) [ask (answers hello); ask (answers silent)])
    as Hok by (repeat constructor).
  split; [exact Hok|].
  exact (clients_agree_on_typed_calls function_calls
           [ask (answers hello); ask (answers silent)] Hok).
Defined.

(** A response [DebugVLLMClient.create] stops on is stored by
    [RawVLLMResponseCapture.create]; what it holds as [has_thought] is the
    thought itself, here [None]. *)
Example raw_stores_none_reason :
  (RawVLLMResponseCapture.create function_calls RawVLLMResponseCapture.init
     [VStr "hi"] ∅ (answers none_reason)).1.1
  = {| RawVLLMResponseCapture.raw_json_responses :=
         [ {| RawVLLMResponseCapture.call_id := 1;
              RawVLLMResponseCapture.response := none_reason;
              RawVLLMResponseCapture.has_content :=
                RawVLLMResponseCapture.Attribute (CScalar (VStr "Hello"));
              RawVLLMResponseCapture.has_thought :=
                RawVLLMResponseCapture.Attribute VNone |} ];
       RawVLLMResponseCapture.call_count := 1 |}.
Proof. reflexivity. Qed.

(** X12: the thought [RawVLLMResponseCapture.create] logs has no newline
    left and is not longer than the thought; for a thought that is true the
    log has its length after the replacements, a preview that is its first
    200 characters, the whole of it when it is not longer, and after these a
    line with the number of the characters left out exactly when it is longer
    than 200. *)
Theorem thought_preview t :
  has_nl (RawVLLMResponseCapture.thought_str t) = false ∧
  Str.len (RawVLLMResponseCapture.thought_str t) ≤ Str.len (py_str t) ∧
  (truthy t = true →
   ∃ preview more,
     RawVLLMResponseCapture.log_thought (RawVLLMResponseCapture.Attribute t)
       = RawVLLMResponseCapture.ThoughtLength
           (Str.len (RawVLLMResponseCapture.thought_str t))
         :: RawVLLMResponseCapture.ThoughtPreview preview :: more ∧
     has_nl preview = false ∧
     preview +:+ Str.drop 200 (RawVLLMResponseCapture.thought_str t)
       = RawVLLMResponseCapture.thought_str t ∧
     ((Str.len (RawVLLMResponseCapture.thought_str t) ≤ 200 ∧ more = []
       ∧ preview = RawVLLMResponseCapture.thought_str t)
      ∨ (200 < Str.len (RawVLLMResponseCapture.thought_str t) ∧ Str.len preview = 200
         ∧ more = [RawVLLMResponseCapture.ThoughtMore
                     (Str.len (RawVLLMResponseCapture.thought_str t) - 200)]))).
Proof.
  assert (has_nl (RawVLLMResponseCapture.thought_str t) = false) as Hclean
    by apply replace_newlines_clean.
  split; [done|]. split.
  - unfold RawVLLMResponseCapture.thought_str.
    rewrite len_replace_newlines. apply len_replace_newline_pairs.
  - intros Ht. unfold RawVLLMResponseCapture.log_thought. rewrite Ht.
    eexists _, _. split; [reflexivity|].
    split; [by apply has_nl_take|]. split; [apply StrFacts.take_append_drop|].
    destruct (200 <? Str.len (RawVLLMResponseCapture.thought_str t)) eqn:Hlen.
    + apply Nat.ltb_lt in Hlen. right. split; [done|]. split; [|done].
      rewrite StrFacts.len_take. lia.
    + apply Nat.ltb_ge in Hlen. left. split; [done|]. split; [done|].
      pose proof (StrFacts.take_append_drop 200 (RawVLLMResponseCapture.thought_str t))
        as Htd.
      assert (Str.drop 200 (RawVLLMResponseCapture.thought_str t) = EmptyString) as E.
      { pose proof (StrFacts.len_drop 200 (RawVLLMResponseCapture.thought_str t)) as Hd.
        destruct (Str.drop 200 _); [done|]. unfold Str.len in *. simpl in Hd. lia. }
      rewrite E in Htd. rewrite <- Htd at 2.
      generalize (Str.take 200 (RawVLLMResponseCapture.thought_str t)).
      intros s. induction s as [|c s IH]; [done|].
      by rewrite StrFacts.append_cons, <- IH.
Qed.

Lemma thought_preview_witness :
  truthy (VStr (String "a" (String Str.nl (String Str.nl "b")))) = true ∧
  RawVLLMResponseCapture.thought_str (VStr (String "a" (String Str.nl (String Str.nl "b"))))
    = "a b" ∧
  ∃ preview more,
    RawVLLMResponseCapture.log_thought
      (RawVLLMResponseCapture.Attribute
         (VStr (String "a" (String Str.nl (String Str.nl "b")))))
      = RawVLLMResponseCapture.ThoughtLength
          (Str.len (RawVLLMResponseCapture.thought_str
                      (VStr (String "a" (String Str.nl (String Str.nl "b"))))))
        :: RawVLLMResponseCapture.ThoughtPreview preview :: more ∧
    has_nl preview = false.
Proof.
  split; [reflexivity|]. split; [reflexivity|].
  destruct (thought_preview (VStr (String "a" (String Str.nl (String Str.nl "b")))))
    as (_ & _ & H).
  destruct (H eq_refl) as (preview & more & Hlog & Hclean & _).
  exists preview, more. split; [exact Hlog|exact Hclean].
Defined.

(** ** Properties of the end of the driver *)

Module MainFacts.

Lemma summary_lines_fmap (l : list line) : summary_lines (Main.Summary <$> l) = l.
Proof.
  unfold summary_lines. induction l as [|x l IH]; [done|].
  cbn [fmap list_fmap omap list_omap]. f_equal. exact IH.
Qed.

Lemma summary_lines_finish results c :
  summary_lines (Main.finish results (Some (Main.Debug c)))
    = (DebugVLLMClient.get_response_summary c).2.
Proof.
  unfold Main.finish, Main.report_client, summary_lines.
  rewrite !omap_app. cbn [omap list_omap app].
  fold (summary_lines (Main.Summary <$> (DebugVLLMClient.get_response_summary c).2)).
  by rewrite summary_lines_fmap, app_nil_r.
Qed.

End MainFacts.

Import MainFacts.

(** X13: after calls made through a [RawVLLMResponseCapture] client the
    driver ends its log with the results, then one line with the number of
    captured responses, which is the number of the calls whose delegate
    returned, then the closing lines. *)
Theorem driver_reports_the_captured_responses object_class results calls :
  Main.finish results
    (Some (Main.Raw (RawVLLMResponseCapture.run object_class
                       RawVLLMResponseCapture.init calls).1))
  = [ Main.CompletedRule; Main.TaskCompleted; Main.PlainRule;
      Main.FinalResults results;
      Main.Captured (count_returned (DebugVLLMClient.outcome <$> calls));
      Main.CompletedRule; Main.ExperimentComplete; Main.ClosingRule ].
Proof.
  unfold Main.finish, Main.report_client.
  destruct (RawFacts.run_spec object_class RawVLLMResponseCapture.init calls)
    as (_ & _ & ->).
  simpl. by rewrite RawFacts.raw_count_length.
Qed.

(** X14: after calls made through a [DebugVLLMClient] client the driver
    logs, between the results and the closing lines, an empty line and the
    summary of the client: its total is the number of all the calls and its
    entries are those of the calls that returned, in their order; for a runner
    without [model_client], or with a client of another class, it logs the
    results and the closing lines only. *)
Theorem driver_logs_the_summary results calls :
  Main.finish results
    (Some (Main.Debug (DebugVLLMClient.run DebugVLLMClient.init calls).1))
  = [ Main.CompletedRule; Main.TaskCompleted; Main.PlainRule;
      Main.FinalResults results; Main.Blank ]
    ++ (Main.Summary <$> (DebugVLLMClient.get_response_summary
                            (DebugVLLMClient.run DebugVLLMClient.init calls).1).2)
    ++ [ Main.CompletedRule; Main.ExperimentComplete; Main.ClosingRule ] ∧
  summary_lines (Main.finish results
    (Some (Main.Debug (DebugVLLMClient.run DebugVLLMClient.init calls).1))) !! 3
  = Some (TotalCalls (Str.ljust 82 (Str.of_nat (length calls)))) ∧
  call_headers (summary_lines (Main.finish results
    (Some (Main.Debug (DebugVLLMClient.run DebugVLLMClient.init calls).1))))
  = DebugVLLMClient.call_id
      <$> returned_records 0 (DebugVLLMClient.run DebugVLLMClient.init calls).2 ∧
  Main.finish results (Some Main.Plain) = Main.finish results None ∧
  Main.finish results None
  = [ Main.CompletedRule; Main.TaskCompleted; Main.PlainRule;
      Main.FinalResults results;
      Main.CompletedRule; Main.ExperimentComplete; Main.ClosingRule ].
Proof.
  split; [done|]. rewrite summary_lines_finish. split; [|split; [|done]].
  - simpl. by rewrite RunFacts.run_call_count.
  - pose proof (TitleFacts.run_returned_records DebugVLLMClient.init calls) as E.
    simpl in E. rewrite <- E.
    unfold DebugVLLMClient.get_response_summary. cbn [snd]. unfold call_headers.
    rewrite !omap_app. simpl. rewrite app_nil_r.
    apply RunFacts.call_headers_entries.
Qed.

Module ItemFacts.
Import DebugVLLMClient LogFacts BlockFacts.

Lemma item_indices_app l1 l2 :
  item_indices (l1 ++ l2) = item_indices l1 ++ item_indices l2.
Proof. apply omap_app. Qed.

Lemma item_indices_continuation rows :
  item_indices (ItemContinuationRow <$> rows) = [].
Proof. induction rows as [|r rows IH]; [done|]. exact IH. Qed.

Lemma log_item_indices idx item : item_indices (log_item idx item).1 = [idx].
Proof.
  rewrite log_item_rows. cbn [fst].
  change (idx :: item_indices
            (ItemContinuationRow <$> wrap_rows 91 width_91 (Str.drop 91 (py_str item)))
          = [idx]).
  by rewrite item_indices_continuation.
Qed.

Lemma for_enumerate_items idx elems :
  (for_enumerate idx elems log_item).2 = Return tt ∧
  item_indices (for_enumerate idx elems log_item).1 = seq idx (length elems).
Proof.
  revert idx. induction elems as [|item elems IH]; intros idx; [done|].
  cbn [for_enumerate]. destruct (IH (S idx)) as [IH1 IH2].
  assert ((log_item idx item).2 = Return tt) as Hret by (by rewrite log_item_rows).
  rewrite (bind_snd_return _ _ tt Hret), (bind_fst_return _ _ tt Hret).
  split; [done|]. by rewrite item_indices_app, log_item_indices, IH2.
Qed.

End ItemFacts.

Import DebugVLLMClient LogFacts ItemFacts.

(** X15: a list content that is not empty is logged under the content
    header with one indexed row for each item, the indices 0, 1, ..., n-1 in
    the order of the list; an empty list is logged on no line at all. *)
Theorem items_are_indexed r elems :
  content r = Some (CList elems) →
  (log_content r).2 = Return tt ∧
  (elems = [] → (log_content r).1 = []) ∧
  (elems ≠ [] →
   take 2 (log_content r).1 = [ContentHeader; Sep] ∧
   item_indices (log_content r).1 = seq 0 (length elems)).
Proof.
  intros Hc. split; [apply log_content_returns|].
  unfold log_content. rewrite Hc. split.
  - by intros ->.
  - intros Hne. destruct elems as [|item elems]; [done|].
    cbn [content_truthy when]. rewrite !bind_info. cbn [fst]. split; [done|].
    change (item_indices (for_enumerate 0 (item :: elems) log_item).1
            = seq 0 (length (item :: elems))).
    apply for_enumerate_items.
Qed.

Lemma items_are_indexed_witness :
  content two_calls
    = Some (CList [VObj true (Str.repeat "x" 100); VObj true "y"]) ∧
  item_indices (log_content two_calls).1 = [0; 1] ∧
  length (log_content two_calls).1 = 5.
Proof.
  split; [reflexivity|].
  destruct (items_are_indexed two_calls
              [VObj true (Str.repeat "x" 100); VObj true "y"] eq_refl)
    as (_ & _ & H).
  destruct (H ltac:(discriminate)) as [_ Hidx].
  split; [exact Hidx|reflexivity].
Defined.
